(** * Flickr REST client: request construction (services/rest.js)

    A shallow embedding of [createAPIKeyPlugin], [processExtras],
    [createClient], the [Flickr] constructor and a domain operation
    ([Flickr.prototype.photos.getInfo]), with the properties of the request
    factory proved about it. *)

From Stdlib Require Import PrimFloat Ascii String ZArith DecimalString.
From stdpp Require Import base option strings list gmap.

(** ** JavaScript values *)

(** The values that reach this module.  [F] is what a function value carries:
    a request plugin for the [auth] argument, nothing for a function stored in
    [args].  Array and Set elements are strings (the field names of
    [extras]); a Set is written as the sequence of values added to it, in the
    order of the [add] calls, so that every such sequence denotes a Set.
    [VObject] stands for any other object, which this module only tests for
    what it is not. *)
Inductive value (F : Type) : Type :=
  | VUndefined
  | VNull
  | VBoolean (b : bool)
  | VNumber (n : float)
  | VString (s : string)
  | VArray (elems : list string)
  | VSet (added : list string)
  | VObject
  | VFunction (f : F).

Arguments VUndefined {F}.
Arguments VNull {F}.
Arguments VBoolean {F} b.
Arguments VNumber {F} n.
Arguments VString {F} s.
Arguments VArray {F} elems.
Arguments VSet {F} added.
Arguments VObject {F}.
Arguments VFunction {F} f.

(** What a call produces: a value, or a thrown [Error] with its message. *)
Inductive js_error : Type := Error (message : string).

Inductive outcome (A : Type) : Type :=
  | Return (a : A)
  | Throw (e : js_error).

Arguments Return {A} a.
Arguments Throw {A} e.

#[global] Instance outcome_ret : MRet outcome := fun A a => Return a.
#[global] Instance outcome_bind : MBind outcome := fun A B k m =>
  match m with
  | Return a => k a
  | Throw e => Throw e
  end.

Definition returns {A} (m : outcome A) : bool :=
  match m with Return _ => true | Throw _ => false end.

(** The double quote character, and a name between double quotes. *)
Definition dquote : string := String (Ascii.ascii_of_nat 34) EmptyString.
Definition quoted (name : string) : string := dquote +:+ name +:+ dquote.

(** The two messages of this module, as the source spells them. *)
Definition InvalidArgumentType (name : string) : js_error :=
  Error ("Invalid type for argument " +:+ quoted name).
Definition MissingRequiredArgument (name : string) : js_error :=
  Error ("Missing required argument " +:+ quoted name).

Section Builtins.
Context {F : Type}.

(** [typeof v] *)
Definition typeof (v : value F) : string :=
  match v with
  | VUndefined => "undefined"
  | VNull => "object"
  | VBoolean _ => "boolean"
  | VNumber _ => "number"
  | VString _ => "string"
  | VArray _ | VSet _ | VObject => "object"
  | VFunction _ => "function"
  end.

(** [Array.isArray(v)] *)
Definition Array_isArray (v : value F) : bool :=
  match v with VArray _ => true | _ => false end.

(** [v instanceof Set] *)
Definition instanceof_Set (v : value F) : bool :=
  match v with VSet _ => true | _ => false end.

(** ToBoolean: what [if (v)] and [v || d] test.  A number is falsy when it
    is +0, -0 or NaN; the empty string is falsy; every object is truthy. *)
Definition truthy (v : value F) : bool :=
  match v with
  | VUndefined | VNull => false
  | VBoolean b => b
  | VNumber n => negb (PrimFloat.eqb n 0%float || negb (PrimFloat.eqb n n))
  | VString s => negb (String.eqb s EmptyString)
  | VArray _ | VSet _ | VObject | VFunction _ => true
  end.
End Builtins.

(** ** Strings, arrays and Sets of field names *)

Definition comma : ascii := ","%char.

(** [s.split(sep)] for a one-character separator: the pieces between the
    separators, so that a string without separator is its own single piece. *)
Fixpoint split (sep : ascii) (s : string) : list string :=
  match s with
  | EmptyString => [EmptyString]
  | String c s' =>
      if Ascii.eqb c sep then EmptyString :: split sep s'
      else match split sep s' with
           | [] => [String c EmptyString]
           | w :: ws => String c w :: ws
           end
  end.

(** [l.join(sep)] on an array of strings. *)
Fixpoint join (sep : string) (l : list string) : string :=
  match l with
  | [] => EmptyString
  | x :: tl =>
      match tl with
      | [] => x
      | _ :: _ => x +:+ sep +:+ join sep tl
      end
  end.

(** [Set.prototype.add]: a value already present is not added again; a new
    one goes last in iteration order. *)
Definition Set_add (s : list string) (x : string) : list string :=
  if decide (x ∈ s) then s else s ++ [x].

(** The iteration order of the Set built by adding [added] in order; this is
    what [Array.from(set)] returns. *)
Definition Array_from (added : list string) : list string :=
  foldl Set_add [] added.

(** Whether the character [c] occurs in [s]. *)
Fixpoint contains (c : ascii) (s : string) : bool :=
  match s with
  | EmptyString => false
  | String a s' => Ascii.eqb a c || contains c s'
  end.

(** How many times [x] occurs in [l]. *)
Definition occurrences (x : string) (l : list string) : nat :=
  length (filter (λ y, y = x) l).

(** ** processExtras *)

Section ProcessExtras.
Context {F : Type}.

Definition processExtras (extras : value F) : outcome (value F) :=
  if negb (String.eqb (typeof extras) "string")
     && negb (Array_isArray extras)
     && negb (instanceof_Set extras)
  then Throw (InvalidArgumentType "extras")
  else
    (* if (typeof extras === 'string') extras = extras.split(',') *)
    let extras1 :=
      match extras with
      | VString s => VArray (split comma s)
      | _ => extras
      end in
    (* if (Array.isArray(extras)) extras = new Set(extras) *)
    let extras2 :=
      match extras1 with
      | VArray elems => VSet elems
      | _ => extras1
      end in
    (* if (extras instanceof Set) return Array.from(extras).join(',') *)
    match extras2 with
    | VSet added => Return (VString (join "," (Array_from added)))
    | _ => Return VUndefined
    end.
End ProcessExtras.

(** The field names an [extras] value holds, for the three shapes the
    normalizer accepts: the pieces of a comma-separated string, the elements
    of an array, the values added to a Set. *)
Definition fields_of {F} (extras : value F) : option (list string) :=
  match extras with
  | VString s => Some (split comma s)
  | VArray elems => Some elems
  | VSet added => Some added
  | _ => None
  end.

(** ** The request object *)

(** How the transport is told to read the response body. *)
Inductive parser : Type := FlickrJson.

(** Modelled from the spec: the request object of [lib/request], which is not
    part of this file's source.  An outgoing request has a verb, a target URL,
    the query parameters attached to it so far (in the order of attachment),
    headers, and the response parsing it was given. *)
Record Request : Type := mkRequest {
  req_verb : string;
  req_url : string;
  req_query : list (string * value unit);
  req_headers : list (string * string);
  req_parse : option parser
}.

(** Modelled from the spec: [request(verb, url)] of [lib/request], a fresh
    request with nothing attached. *)
Definition request (verb url : string) : Request :=
  {| req_verb := verb; req_url := url;
     req_query := []; req_headers := []; req_parse := None |}.

(** Modelled from the spec: [req.query(obj)] attaches every entry of [obj]
    as a query parameter.  [req_query] is the record of these attachments,
    call after call; the order of the entries of one [obj] is not modelled.
    What the request is sent with is keyed by name, see [req_qs]: a name
    attached again replaces what was attached before. *)
Definition query (obj : gmap string (value unit)) (req : Request) : Request :=
  {| req_verb := req_verb req; req_url := req_url req;
     req_query := req_query req ++ map_to_list obj;
     req_headers := req_headers req; req_parse := req_parse req |}.

(** Modelled from the spec: [req.set(name, v)] attaches a header. *)
Definition set_header (name v : string) (req : Request) : Request :=
  {| req_verb := req_verb req; req_url := req_url req;
     req_query := req_query req;
     req_headers := req_headers req ++ [(name, v)]; req_parse := req_parse req |}.

(** A plugin (decorator) takes the request and gives it back decorated. *)
Definition Plugin : Type := Request -> Request.

(** Modelled from the spec: [req.use(plugin)] hands the request to the
    plugin. *)
Definition use (plugin : Plugin) (req : Request) : Request := plugin req.

(** Modelled from the spec: the response-parsing decorator [plugins/json],
    which is not part of this file's source; it makes the transport read the
    body as the remote API's JSON envelope and touches nothing else. *)
Definition json : Plugin := fun req =>
  {| req_verb := req_verb req; req_url := req_url req;
     req_query := req_query req;
     req_headers := req_headers req; req_parse := Some FlickrJson |}.

(** ** createAPIKeyPlugin *)

Definition createAPIKeyPlugin (str : string) : Plugin :=
  fun req => query {[ "api_key" := VString str ]} req.

(** ** createClient *)

(** The [opts] object: a host name and an integer port, both optional. *)
Record Options : Type := mkOptions {
  opt_host : option string;
  opt_port : option Z
}.

(** ToString of a number that is a safe integer ([safe_integer] below, the
    integers of magnitude under 2^53, which a JavaScript number holds
    exactly): its decimal digits, with a minus sign when negative.  Larger
    numbers are outside this model; JavaScript holds them rounded and prints
    them in exponent form from 1e21 on. *)
Definition ToString (n : Z) : string := NilZero.string_of_int (Z.to_int n).

(** The request builder a client is: [function (verb, method, args)], where
    [args] may be left out. *)
Definition Client : Type :=
  string -> string -> option (gmap string (value unit)) -> outcome Request.

(** Lines 78-83: the [host] variable the returned closure captures. *)
Definition client_host (opts : option Options) : string :=
  (* opts = opts || {} *)
  let opts := default {| opt_host := None; opt_port := None |} opts in
  (* host = opts.host || 'api.flickr.com' *)
  let host :=
    match opt_host opts with
    | Some h => if String.eqb h EmptyString then "api.flickr.com" else h
    | None => "api.flickr.com"
    end in
  (* if (opts.port) host += ':' + opts.port *)
  match opt_port opts with
  | Some p => if Z.eqb p 0 then host else host +:+ ":" +:+ ToString p
  | None => host
  end.

(** Lines 90-92 of the returned closure: the [extras] entry of [args], when
    truthy, is replaced by what [processExtras] makes of it. *)
Definition normalize_extras (args : gmap string (value unit))
    : outcome (gmap string (value unit)) :=
  (* args.extras reads undefined when the key is absent *)
  let extras := default VUndefined (args !! "extras") in
  if truthy extras
  then extras' ← processExtras extras; mret (<[ "extras" := extras' ]> args)
  else mret args.

(** Lines 85-99: the returned closure, over the captured [auth] and [host],
    called without [args] or with an object.  Line 86 replaces [undefined]
    only; the call with [null] is [build_any] below. *)
Definition build (auth : Plugin) (host : string) : Client :=
  fun verb method args =>
    (* if (typeof args === 'undefined') args = {} *)
    let args := default ∅ args in
    (* if (args.extras) args.extras = processExtras(args.extras) *)
    args ← normalize_extras args;
    mret (use auth (use json (query args (query {[ "method" := VString method ]}
           (request verb ("https://" +:+ host +:+ "/services/rest")))))).

Definition createClient (auth : value Plugin) (opts : option Options) : outcome Client :=
  (* if (typeof auth === 'string') auth = createAPIKeyPlugin(auth) *)
  let auth :=
    match auth with
    | VString str => VFunction (createAPIKeyPlugin str)
    | _ => auth
    end in
  (* if (typeof auth !== 'function') throw *)
  match auth with
  | VFunction plugin => Return (build plugin (client_host opts))
  | _ => Throw (MissingRequiredArgument "auth")
  end.

(** ** The Flickr constructor and a domain operation *)

(** A namespace object ([Flickr.prototype.photos], ...): the client stored
    under its [_] property, which its operations call as [this._]. *)
Record Namespace : Type := mkNamespace { underscore : Client }.

(** A Flickr object as its construction leaves it.  One client is created and
    stored under [_] on the instance and on every namespace object; the
    namespaces all hold that same client, so the record keeps the instance's
    own [_] and the [photos] namespace, whose operation is modelled below. *)
Record FlickrObject : Type := mkFlickr {
  passthrough : Client;
  photos : Namespace
}.

(** How a function is invoked: [new Flickr(..)] or plain [Flickr(..)]. *)
Inductive invocation : Type := WithNew | WithoutNew.

(** The constructor body after the [instanceof] guard. *)
Definition Flickr_init (auth : value Plugin) (opts : option Options) : outcome FlickrObject :=
  (* this.activity._ = ... = this.photos._ = ... = this._ = createClient(auth, opts) *)
  client ← createClient auth opts;
  mret {| passthrough := client; photos := {| underscore := client |} |}.

Definition Flickr (how : invocation) (auth : value Plugin) (opts : option Options)
    : outcome FlickrObject :=
  match how with
  | WithoutNew =>
      (* if (!(this instanceof Flickr)) return new Flickr(auth) *)
      Flickr_init auth None
  | WithNew => Flickr_init auth opts
  end.

(** Modelled from the spec: [validate] of [lib/validate], which is not part of
    this file's source.  A required parameter that is absent from [args]
    (also when [args] itself is left out) fails the call with the
    missing-argument error naming it. *)
Definition validate (args : option (gmap string (value unit))) (prop : string) : outcome unit :=
  match default ∅ args !! prop with
  | Some _ => Return tt
  | None => Throw (MissingRequiredArgument prop)
  end.

(** [Flickr.prototype.photos.getInfo], called on a namespace object [this]. *)
Definition photos_getInfo (this : Namespace) (args : option (gmap string (value unit)))
    : outcome Request :=
  _ ← validate args "photo_id";
  underscore this "GET" "flickr.photos.getInfo" args.


(** ** Notions the properties are stated with *)

(** The decorator [createClient] derives from its [auth] argument: the
    API-key plugin for a string, the function itself for a function. *)
Definition auth_decorator (auth : value Plugin) : option Plugin :=
  match auth with
  | VString str => Some (createAPIKeyPlugin str)
  | VFunction plugin => Some plugin
  | _ => None
  end.

(** The contract of an auth decorator: it adds credential material to the
    request and leaves what is already there in place. *)
Definition adds_credentials (plugin : Plugin) : Prop :=
  ∀ req,
    req_verb (plugin req) = req_verb req ∧
    req_url (plugin req) = req_url req ∧
    req_parse (plugin req) = req_parse req ∧
    (∀ p, p ∈ req_query req → p ∈ req_query (plugin req)).

(** An [args] mapping the builder accepts: its [extras] entry, when present
    and truthy, is a string, an array or a Set. *)
Definition valid_args (args : option (gmap string (value unit))) : bool :=
  match default ∅ args !! "extras" with
  | Some extras => negb (truthy extras) || bool_decide (is_Some (fields_of extras))
  | None => true
  end.

(** The request as it stands when the auth decorator is attached: target,
    [method], the entries of [args], JSON parsing. *)
Definition assembled (host verb method : string) (args : gmap string (value unit))
    : Request :=
  json (query args (query {[ "method" := VString method ]}
    (request verb ("https://" +:+ host +:+ "/services/rest")))).

(** A decorator for the examples: it signs the request with a header that
    records how many query parameters it saw. *)
Definition signing_plugin : Plugin := fun req =>
  set_header "Authorization"
    (NilZero.string_of_uint (Nat.to_uint (length (req_query req)))) req.


(** ** The domain operations

    Every operation on the prototype has the same body: it checks its
    required parameters with [validate], one call each and in this order, and
    then hands verb, remote method name and [args] to the client of its
    namespace, [this._]. *)

(** [Flickr.prototype.<namespace>.<function> = function (args) { ... }] *)
Record Operation : Type := mkOp {
  op_namespace : string;
  op_function : string;
  op_verb : string;
  op_name : string;
  op_required : list string
}.

(** The [validate] calls of a body, in order. *)
Fixpoint validate_all (args : option (gmap string (value unit)))
    (required : list string) : outcome unit :=
  match required with
  | [] => Return tt
  | prop :: rest => _ ← validate args prop; validate_all args rest
  end.

(** Calling operation [op] on the namespace object [this]. *)
Definition run (op : Operation) (this : Namespace)
    (args : option (gmap string (value unit))) : outcome Request :=
  _ ← validate_all args (op_required op);
  underscore this (op_verb op) (op_name op) args.

(** The operations of the file, in source order (lines 454-3630). *)
Definition method_table : list Operation := [
  mkOp "activity" "userComments" "GET" "flickr.activity.userComments" [];
  mkOp "activity" "userPhotos" "GET" "flickr.activity.userPhotos" [];
  mkOp "auth" "checkToken" "GET" "flickr.auth.checkToken" ["auth_token"];
  mkOp "auth" "getFrob" "GET" "flickr.auth.getFrob" [];
  mkOp "auth" "getFullToken" "GET" "flickr.auth.getFullToken" ["mini_token"];
  mkOp "auth" "getToken" "GET" "flickr.auth.getToken" ["frob"];
  mkOp "auth.oauth" "checkToken" "GET" "flickr.auth.oauth.checkToken" ["oauth_token"];
  mkOp "auth.oauth" "getAccessToken" "GET" "flickr.auth.oauth.getAccessToken" [];
  mkOp "blogs" "getList" "GET" "flickr.blogs.getList" [];
  mkOp "blogs" "getServices" "GET" "flickr.blogs.getServices" [];
  mkOp "blogs" "postPhoto" "POST" "flickr.blogs.postPhoto" ["photo_id"; "title"; "description"];
  mkOp "cameras" "getBrandModels" "GET" "flickr.cameras.getBrandModels" ["brand"];
  mkOp "cameras" "getBrands" "GET" "flickr.cameras.getBrands" [];
  mkOp "collections" "getInfo" "GET" "flickr.collections.getInfo" ["collection_id"];
  mkOp "collections" "getTree" "GET" "flickr.collections.getTree" [];
  mkOp "commons" "getInstitutions" "GET" "flickr.commons.getInstitutions" [];
  mkOp "contacts" "getList" "GET" "flickr.contacts.getList" [];
  mkOp "contacts" "getListRecentlyUploaded" "GET" "flickr.contacts.getListRecentlyUploaded" [];
  mkOp "contacts" "getPublicList" "GET" "flickr.contacts.getPublicList" ["user_id"];
  mkOp "contacts" "getTaggingSuggestions" "GET" "flickr.contacts.getTaggingSuggestions" [];
  mkOp "favorites" "add" "POST" "flickr.favorites.add" ["photo_id"];
  mkOp "favorites" "getContext" "GET" "flickr.favorites.getContext" ["photo_id"; "user_id"];
  mkOp "favorites" "getList" "GET" "flickr.favorites.getList" [];
  mkOp "favorites" "getPublicList" "GET" "flickr.favorites.getPublicList" ["user_id"];
  mkOp "favorites" "remove" "POST" "flickr.favorites.remove" ["photo_id"];
  mkOp "galleries" "addPhoto" "POST" "flickr.galleries.addPhoto" ["gallery_id"; "photo_id"];
  mkOp "galleries" "create" "POST" "flickr.galleries.create" ["title"; "description"];
  mkOp "galleries" "editMeta" "POST" "flickr.galleries.editMeta" ["gallery_id"; "title"];
  mkOp "galleries" "editPhoto" "POST" "flickr.galleries.editPhoto"
    ["gallery_id"; "photo_id"; "comment"];
  mkOp "galleries" "editPhotos" "POST" "flickr.galleries.editPhotos"
    ["gallery_id"; "primary_photo_id"; "photo_ids"];
  mkOp "galleries" "getInfo" "GET" "flickr.galleries.getInfo" ["gallery_id"];
  mkOp "galleries" "getList" "GET" "flickr.galleries.getList" ["user_id"];
  mkOp "galleries" "getListForPhoto" "GET" "flickr.galleries.getListForPhoto" ["photo_id"];
  mkOp "galleries" "getPhotos" "GET" "flickr.galleries.getPhotos" ["gallery_id"];
  mkOp "groups" "browse" "GET" "flickr.groups.browse" [];
  mkOp "groups" "getInfo" "GET" "flickr.groups.getInfo" ["group_id"];
  mkOp "groups" "join" "POST" "flickr.groups.join" ["group_id"];
  mkOp "groups" "joinRequest" "POST" "flickr.groups.joinRequest"
    ["group_id"; "message"; "accept_rules"];
  mkOp "groups" "leave" "POST" "flickr.groups.leave" ["group_id"];
  mkOp "groups" "search" "GET" "flickr.groups.search" ["text"];
  mkOp "groups.discuss.replies" "add" "POST" "flickr.groups.discuss.replies.add"
    ["group_id"; "topic_id"; "message"];
  mkOp "groups.discuss.replies" "delete" "POST" "flickr.groups.discuss.replies.delete"
    ["group_id"; "topic_id"; "reply_id"];
  mkOp "groups.discuss.replies" "edit" "POST" "flickr.groups.discuss.replies.edit"
    ["group_id"; "topic_id"; "reply_id"; "message"];
  mkOp "groups.discuss.replies" "getInfo" "GET" "flickr.groups.discuss.replies.getInfo"
    ["group_id"; "topic_id"; "reply_id"];
  mkOp "groups.discuss.replies" "getList" "GET" "flickr.groups.discuss.replies.getList"
    ["group_id"; "topic_id"; "per_page"];
  mkOp "groups.discuss.topics" "add" "POST" "flickr.groups.discuss.topics.add"
    ["group_id"; "subject"; "message"];
  mkOp "groups.discuss.topics" "getInfo" "GET" "flickr.groups.discuss.topics.getInfo"
    ["group_id"; "topic_id"];
  mkOp "groups.discuss.topics" "getList" "GET" "flickr.groups.discuss.topics.getList" ["group_id"];
  mkOp "groups.members" "getList" "GET" "flickr.groups.members.getList" ["group_id"];
  mkOp "groups.pools" "add" "POST" "flickr.groups.pools.add" ["photo_id"; "group_id"];
  mkOp "groups.pools" "getContext" "GET" "flickr.groups.pools.getContext" ["photo_id"; "group_id"];
  mkOp "groups.pools" "getGroups" "GET" "flickr.groups.pools.getGroups" [];
  mkOp "groups.pools" "getPhotos" "GET" "flickr.groups.pools.getPhotos" ["group_id"];
  mkOp "groups.pools" "remove" "POST" "flickr.groups.pools.remove" ["photo_id"; "group_id"];
  mkOp "interestingness" "getList" "GET" "flickr.interestingness.getList" [];
  mkOp "machinetags" "getNamespaces" "GET" "flickr.machinetags.getNamespaces" [];
  mkOp "machinetags" "getPairs" "GET" "flickr.machinetags.getPairs" [];
  mkOp "machinetags" "getPredicates" "GET" "flickr.machinetags.getPredicates" [];
  mkOp "machinetags" "getRecentValues" "GET" "flickr.machinetags.getRecentValues" [];
  mkOp "machinetags" "getValues" "GET" "flickr.machinetags.getValues" ["namespace"; "predicate"];
  mkOp "panda" "getList" "GET" "flickr.panda.getList" [];
  mkOp "panda" "getPhotos" "GET" "flickr.panda.getPhotos" ["panda_name"];
  mkOp "people" "findByEmail" "GET" "flickr.people.findByEmail" ["find_email"];
  mkOp "people" "findByUsername" "GET" "flickr.people.findByUsername" ["username"];
  mkOp "people" "getGroups" "GET" "flickr.people.getGroups" ["user_id"];
  mkOp "people" "getInfo" "GET" "flickr.people.getInfo" ["user_id"];
  mkOp "people" "getLimits" "GET" "flickr.people.getLimits" [];
  mkOp "people" "getPhotos" "GET" "flickr.people.getPhotos" ["user_id"];
  mkOp "people" "getPhotosOf" "GET" "flickr.people.getPhotosOf" ["user_id"];
  mkOp "people" "getPublicGroups" "GET" "flickr.people.getPublicGroups" ["user_id"];
  mkOp "people" "getPublicPhotos" "GET" "flickr.people.getPublicPhotos" ["user_id"];
  mkOp "people" "getUploadStatus" "GET" "flickr.people.getUploadStatus" [];
  mkOp "photos" "addTags" "POST" "flickr.photos.addTags" ["photo_id"; "tags"];
  mkOp "photos" "delete" "POST" "flickr.photos.delete" ["photo_id"];
  mkOp "photos" "getAllContexts" "GET" "flickr.photos.getAllContexts" ["photo_id"];
  mkOp "photos" "getContactsPhotos" "GET" "flickr.photos.getContactsPhotos" [];
  mkOp "photos" "getContactsPublicPhotos" "GET" "flickr.photos.getContactsPublicPhotos" ["user_id"];
  mkOp "photos" "getContext" "GET" "flickr.photos.getContext" ["photo_id"];
  mkOp "photos" "getCounts" "GET" "flickr.photos.getCounts" [];
  mkOp "photos" "getExif" "GET" "flickr.photos.getExif" ["photo_id"];
  mkOp "photos" "getFavorites" "GET" "flickr.photos.getFavorites" ["photo_id"];
  mkOp "photos" "getInfo" "GET" "flickr.photos.getInfo" ["photo_id"];
  mkOp "photos" "getNotInSet" "GET" "flickr.photos.getNotInSet" [];
  mkOp "photos" "getPerms" "GET" "flickr.photos.getPerms" ["photo_id"];
  mkOp "photos" "getPopular" "GET" "flickr.photos.getPopular" [];
  mkOp "photos" "getRecent" "GET" "flickr.photos.getRecent" [];
  mkOp "photos" "getSizes" "GET" "flickr.photos.getSizes" ["photo_id"];
  mkOp "photos" "getUntagged" "GET" "flickr.photos.getUntagged" [];
  mkOp "photos" "getWithGeoData" "GET" "flickr.photos.getWithGeoData" [];
  mkOp "photos" "getWithoutGeoData" "GET" "flickr.photos.getWithoutGeoData" [];
  mkOp "photos" "recentlyUpdated" "GET" "flickr.photos.recentlyUpdated" ["min_date"];
  mkOp "photos" "removeTag" "POST" "flickr.photos.removeTag" ["tag_id"];
  mkOp "photos" "search" "GET" "flickr.photos.search" [];
  mkOp "photos" "setContentType" "POST" "flickr.photos.setContentType" ["photo_id"; "content_type"];
  mkOp "photos" "setDates" "POST" "flickr.photos.setDates" ["photo_id"];
  mkOp "photos" "setMeta" "POST" "flickr.photos.setMeta" ["photo_id"];
  mkOp "photos" "setPerms" "POST" "flickr.photos.setPerms"
    ["photo_id"; "is_public"; "is_friend"; "is_family"];
  mkOp "photos" "setSafetyLevel" "POST" "flickr.photos.setSafetyLevel" ["photo_id"];
  mkOp "photos" "setTags" "POST" "flickr.photos.setTags" ["photo_id"; "tags"];
  mkOp "photos.comments" "addComment" "POST" "flickr.photos.comments.addComment"
    ["photo_id"; "comment_text"];
  mkOp "photos.comments" "deleteComment" "POST" "flickr.photos.comments.deleteComment"
    ["comment_id"];
  mkOp "photos.comments" "editComment" "POST" "flickr.photos.comments.editComment"
    ["comment_id"; "comment_text"];
  mkOp "photos.comments" "getList" "GET" "flickr.photos.comments.getList" ["photo_id"];
  mkOp "photos.comments" "getRecentForContacts" "GET" "flickr.photos.comments.getRecentForContacts"
    [];
  mkOp "photos.geo" "batchCorrectLocation" "POST" "flickr.photos.geo.batchCorrectLocation"
    ["lat"; "lon"; "accuracy"];
  mkOp "photos.geo" "correctLocation" "POST" "flickr.photos.geo.correctLocation"
    ["photo_id"; "foursquare_id"];
  mkOp "photos.geo" "getLocation" "GET" "flickr.photos.geo.getLocation" ["photo_id"];
  mkOp "photos.geo" "getPerms" "GET" "flickr.photos.geo.getPerms" ["photo_id"];
  mkOp "photos.geo" "photosForLocation" "GET" "flickr.photos.geo.photosForLocation" ["lat"; "lon"];
  mkOp "photos.geo" "removeLocation" "POST" "flickr.photos.geo.removeLocation" ["photo_id"];
  mkOp "photos.geo" "setContext" "POST" "flickr.photos.geo.setContext" ["photo_id"; "context"];
  mkOp "photos.geo" "setLocation" "POST" "flickr.photos.geo.setLocation" ["photo_id"; "lat"; "lon"];
  mkOp "photos.geo" "setPerms" "POST" "flickr.photos.geo.setPerms"
    ["is_public"; "is_contact"; "is_friend"; "is_family"; "photo_id"];
  mkOp "photos.licenses" "getInfo" "GET" "flickr.photos.licenses.getInfo" [];
  mkOp "photos.licenses" "setLicense" "POST" "flickr.photos.licenses.setLicense"
    ["photo_id"; "license_id"];
  mkOp "photos.notes" "add" "POST" "flickr.photos.notes.add"
    ["photo_id"; "note_x"; "note_y"; "note_w"; "note_h"; "note_text"];
  mkOp "photos.notes" "delete" "POST" "flickr.photos.notes.delete" ["note_id"];
  mkOp "photos.notes" "edit" "POST" "flickr.photos.notes.edit"
    ["note_id"; "note_x"; "note_y"; "note_w"; "note_h"; "note_text"];
  mkOp "photos.people" "add" "POST" "flickr.photos.people.add" ["photo_id"; "user_id"];
  mkOp "photos.people" "delete" "POST" "flickr.photos.people.delete" ["photo_id"; "user_id"];
  mkOp "photos.people" "deleteCoords" "POST" "flickr.photos.people.deleteCoords"
    ["photo_id"; "user_id"];
  mkOp "photos.people" "editCoords" "POST" "flickr.photos.people.editCoords"
    ["photo_id"; "user_id"; "person_x"; "person_y"; "person_w"; "person_h"];
  mkOp "photos.people" "getList" "GET" "flickr.photos.people.getList" ["photo_id"];
  mkOp "photos.suggestions" "approveSuggestion" "POST" "flickr.photos.suggestions.approveSuggestion"
    ["suggestion_id"];
  mkOp "photos.suggestions" "getList" "GET" "flickr.photos.suggestions.getList" [];
  mkOp "photos.suggestions" "rejectSuggestion" "POST" "flickr.photos.suggestions.rejectSuggestion"
    ["suggestion_id"];
  mkOp "photos.suggestions" "removeSuggestion" "POST" "flickr.photos.suggestions.removeSuggestion"
    ["suggestion_id"];
  mkOp "photos.suggestions" "suggestLocation" "POST" "flickr.photos.suggestions.suggestLocation"
    ["photo_id"; "lat"; "lon"];
  mkOp "photos.transform" "rotate" "POST" "flickr.photos.transform.rotate" ["photo_id"; "degrees"];
  mkOp "photos.upload" "checkTickets" "GET" "flickr.photos.upload.checkTickets" ["tickets"];
  mkOp "photosets" "addPhoto" "POST" "flickr.photosets.addPhoto" ["photoset_id"; "photo_id"];
  mkOp "photosets" "create" "POST" "flickr.photosets.create" ["title"; "primary_photo_id"];
  mkOp "photosets" "delete" "POST" "flickr.photosets.delete" ["photoset_id"];
  mkOp "photosets" "editMeta" "POST" "flickr.photosets.editMeta" ["photoset_id"; "title"];
  mkOp "photosets" "editPhotos" "POST" "flickr.photosets.editPhotos"
    ["photoset_id"; "primary_photo_id"; "photo_ids"];
  mkOp "photosets" "getContext" "GET" "flickr.photosets.getContext" ["photo_id"; "photoset_id"];
  mkOp "photosets" "getInfo" "GET" "flickr.photosets.getInfo" ["photoset_id"; "user_id"];
  mkOp "photosets" "getList" "GET" "flickr.photosets.getList" [];
  mkOp "photosets" "getPhotos" "GET" "flickr.photosets.getPhotos" ["photoset_id"; "user_id"];
  mkOp "photosets" "orderSets" "POST" "flickr.photosets.orderSets" ["photoset_ids"];
  mkOp "photosets" "removePhoto" "POST" "flickr.photosets.removePhoto" ["photoset_id"; "photo_id"];
  mkOp "photosets" "removePhotos" "POST" "flickr.photosets.removePhotos"
    ["photoset_id"; "photo_ids"];
  mkOp "photosets" "reorderPhotos" "POST" "flickr.photosets.reorderPhotos"
    ["photoset_id"; "photo_ids"];
  mkOp "photosets" "setPrimaryPhoto" "POST" "flickr.photosets.setPrimaryPhoto"
    ["photoset_id"; "photo_id"];
  mkOp "photosets.comments" "addComment" "POST" "flickr.photosets.comments.addComment"
    ["photoset_id"; "comment_text"];
  mkOp "photosets.comments" "deleteComment" "POST" "flickr.photosets.comments.deleteComment"
    ["comment_id"];
  mkOp "photosets.comments" "editComment" "POST" "flickr.photosets.comments.editComment"
    ["comment_id"; "comment_text"];
  mkOp "photosets.comments" "getList" "GET" "flickr.photosets.comments.getList" ["photoset_id"];
  mkOp "places" "find" "GET" "flickr.places.find" ["query"];
  mkOp "places" "findByLatLon" "GET" "flickr.places.findByLatLon" ["lat"; "lon"];
  mkOp "places" "getChildrenWithPhotosPublic" "GET" "flickr.places.getChildrenWithPhotosPublic" [];
  mkOp "places" "getInfo" "GET" "flickr.places.getInfo" [];
  mkOp "places" "getInfoByUrl" "GET" "flickr.places.getInfoByUrl" ["url"];
  mkOp "places" "getPlaceTypes" "GET" "flickr.places.getPlaceTypes" [];
  mkOp "places" "getShapeHistory" "GET" "flickr.places.getShapeHistory" [];
  mkOp "places" "getTopPlacesList" "GET" "flickr.places.getTopPlacesList" ["place_type_id"];
  mkOp "places" "placesForBoundingBox" "GET" "flickr.places.placesForBoundingBox" ["bbox"];
  mkOp "places" "placesForContacts" "GET" "flickr.places.placesForContacts" [];
  mkOp "places" "placesForTags" "GET" "flickr.places.placesForTags" ["place_type_id"];
  mkOp "places" "placesForUser" "GET" "flickr.places.placesForUser" [];
  mkOp "places" "resolvePlaceId" "GET" "flickr.places.resolvePlaceId" ["place_id"];
  mkOp "places" "resolvePlaceURL" "GET" "flickr.places.resolvePlaceURL" ["url"];
  mkOp "places" "tagsForPlace" "GET" "flickr.places.tagsForPlace" [];
  mkOp "prefs" "getContentType" "GET" "flickr.prefs.getContentType" [];
  mkOp "prefs" "getGeoPerms" "GET" "flickr.prefs.getGeoPerms" [];
  mkOp "prefs" "getHidden" "GET" "flickr.prefs.getHidden" [];
  mkOp "prefs" "getPrivacy" "GET" "flickr.prefs.getPrivacy" [];
  mkOp "prefs" "getSafetyLevel" "GET" "flickr.prefs.getSafetyLevel" [];
  mkOp "profile" "getProfile" "GET" "flickr.profile.getProfile" ["user_id"];
  mkOp "push" "getSubscriptions" "GET" "flickr.push.getSubscriptions" [];
  mkOp "push" "getTopics" "GET" "flickr.push.getTopics" [];
  mkOp "push" "subscribe" "GET" "flickr.push.subscribe" ["topic"; "callback"; "verify"];
  mkOp "push" "unsubscribe" "GET" "flickr.push.unsubscribe" ["topic"; "callback"; "verify"];
  mkOp "reflection" "getMethodInfo" "GET" "flickr.reflection.getMethodInfo" ["method_name"];
  mkOp "reflection" "getMethods" "GET" "flickr.reflection.getMethods" [];
  mkOp "stats" "getCSVFiles" "GET" "flickr.stats.getCSVFiles" [];
  mkOp "stats" "getCollectionDomains" "GET" "flickr.stats.getCollectionDomains" ["date"];
  mkOp "stats" "getCollectionReferrers" "GET" "flickr.stats.getCollectionReferrers"
    ["date"; "domain"];
  mkOp "stats" "getCollectionStats" "GET" "flickr.stats.getCollectionStats"
    ["date"; "collection_id"];
  mkOp "stats" "getPhotoDomains" "GET" "flickr.stats.getPhotoDomains" ["date"];
  mkOp "stats" "getPhotoReferrers" "GET" "flickr.stats.getPhotoReferrers" ["date"; "domain"];
  mkOp "stats" "getPhotoStats" "GET" "flickr.stats.getPhotoStats" ["date"; "photo_id"];
  mkOp "stats" "getPhotosetDomains" "GET" "flickr.stats.getPhotosetDomains" ["date"];
  mkOp "stats" "getPhotosetReferrers" "GET" "flickr.stats.getPhotosetReferrers" ["date"; "domain"];
  mkOp "stats" "getPhotosetStats" "GET" "flickr.stats.getPhotosetStats" ["date"; "photoset_id"];
  mkOp "stats" "getPhotostreamDomains" "GET" "flickr.stats.getPhotostreamDomains" ["date"];
  mkOp "stats" "getPhotostreamReferrers" "GET" "flickr.stats.getPhotostreamReferrers"
    ["date"; "domain"];
  mkOp "stats" "getPhotostreamStats" "GET" "flickr.stats.getPhotostreamStats" ["date"];
  mkOp "stats" "getPopularPhotos" "GET" "flickr.stats.getPopularPhotos" [];
  mkOp "stats" "getTotalViews" "GET" "flickr.stats.getTotalViews" [];
  mkOp "tags" "getClusterPhotos" "GET" "flickr.tags.getClusterPhotos" ["tag"; "cluster_id"];
  mkOp "tags" "getClusters" "GET" "flickr.tags.getClusters" ["tag"];
  mkOp "tags" "getHotList" "GET" "flickr.tags.getHotList" [];
  mkOp "tags" "getListPhoto" "GET" "flickr.tags.getListPhoto" ["photo_id"];
  mkOp "tags" "getListUser" "GET" "flickr.tags.getListUser" [];
  mkOp "tags" "getListUserPopular" "GET" "flickr.tags.getListUserPopular" [];
  mkOp "tags" "getListUserRaw" "GET" "flickr.tags.getListUserRaw" [];
  mkOp "tags" "getMostFrequentlyUsed" "GET" "flickr.tags.getMostFrequentlyUsed" [];
  mkOp "tags" "getRelated" "GET" "flickr.tags.getRelated" ["tag"];
  mkOp "test" "echo" "GET" "flickr.test.echo" [];
  mkOp "test" "login" "GET" "flickr.test.login" [];
  mkOp "test" "null" "GET" "flickr.test.null" [];
  mkOp "testimonials" "addTestimonial" "POST" "flickr.testimonials.addTestimonial"
    ["user_id"; "testimonial_text"];
  mkOp "testimonials" "approveTestimonial" "POST" "flickr.testimonials.approveTestimonial"
    ["testimonial_id"];
  mkOp "testimonials" "deleteTestimonial" "POST" "flickr.testimonials.deleteTestimonial"
    ["testimonial_id"];
  mkOp "testimonials" "editTestimonial" "POST" "flickr.testimonials.editTestimonial"
    ["user_id"; "testimonial_id"; "testimonial_text"];
  mkOp "testimonials" "getAllTestimonialsAbout" "GET" "flickr.testimonials.getAllTestimonialsAbout"
    [];
  mkOp "testimonials" "getAllTestimonialsAboutBy" "GET" "flickr.testimonials.getAllTestimonialsAboutBy"
    ["user_id"];
  mkOp "testimonials" "getAllTestimonialsBy" "GET" "flickr.testimonials.getAllTestimonialsBy" [];
  mkOp "testimonials" "getPendingTestimonialsAbout" "GET" "flickr.testimonials.getPendingTestimonialsAbout"
    [];
  mkOp "testimonials" "getPendingTestimonialsAboutBy" "GET" "flickr.testimonials.getPendingTestimonialsAboutBy"
    ["user_id"];
  mkOp "testimonials" "getPendingTestimonialsBy" "GET" "flickr.testimonials.getPendingTestimonialsBy"
    [];
  mkOp "testimonials" "getTestimonialsAbout" "GET" "flickr.testimonials.getTestimonialsAbout"
    ["user_id"];
  mkOp "testimonials" "getTestimonialsAboutBy" "GET" "flickr.testimonials.getTestimonialsAboutBy"
    ["user_id"];
  mkOp "testimonials" "getTestimonialsBy" "GET" "flickr.testimonials.getTestimonialsBy" ["user_id"];
  mkOp "urls" "getGroup" "GET" "flickr.urls.getGroup" ["group_id"];
  mkOp "urls" "getUserPhotos" "GET" "flickr.urls.getUserPhotos" [];
  mkOp "urls" "getUserProfile" "GET" "flickr.urls.getUserProfile" [];
  mkOp "urls" "lookupGallery" "GET" "flickr.urls.lookupGallery" ["url"];
  mkOp "urls" "lookupGroup" "GET" "flickr.urls.lookupGroup" ["url"];
  mkOp "urls" "lookupUser" "GET" "flickr.urls.lookupUser" ["url"]
].

(** A row of the method table in the documentation comment of [Flickr]
    (lines 162-382): remote method, permission, required arguments. *)
Record DocRow : Type := mkDoc {
  doc_method : string;
  doc_permission : string;
  doc_required : list string
}.

Definition documentation : list DocRow := [
  mkDoc "flickr.activity.userComments" "read" [];
  mkDoc "flickr.activity.userPhotos" "read" [];
  mkDoc "flickr.auth.checkToken" "none" ["auth_token"];
  mkDoc "flickr.auth.getFrob" "none" [];
  mkDoc "flickr.auth.getFullToken" "none" ["mini_token"];
  mkDoc "flickr.auth.getToken" "none" ["frob"];
  mkDoc "flickr.auth.oauth.checkToken" "none" ["oauth_token"];
  mkDoc "flickr.auth.oauth.getAccessToken" "none" [];
  mkDoc "flickr.blogs.getList" "read" [];
  mkDoc "flickr.blogs.getServices" "none" [];
  mkDoc "flickr.blogs.postPhoto" "write" ["photo_id"; "title"; "description"];
  mkDoc "flickr.cameras.getBrandModels" "none" ["brand"];
  mkDoc "flickr.cameras.getBrands" "none" [];
  mkDoc "flickr.collections.getInfo" "read" ["collection_id"];
  mkDoc "flickr.collections.getTree" "none" [];
  mkDoc "flickr.commons.getInstitutions" "none" [];
  mkDoc "flickr.contacts.getList" "read" [];
  mkDoc "flickr.contacts.getListRecentlyUploaded" "read" [];
  mkDoc "flickr.contacts.getPublicList" "none" ["user_id"];
  mkDoc "flickr.contacts.getTaggingSuggestions" "read" [];
  mkDoc "flickr.favorites.add" "write" ["photo_id"];
  mkDoc "flickr.favorites.getContext" "none" ["photo_id"; "user_id"];
  mkDoc "flickr.favorites.getList" "none" [];
  mkDoc "flickr.favorites.getPublicList" "none" ["user_id"];
  mkDoc "flickr.favorites.remove" "write" ["photo_id"];
  mkDoc "flickr.galleries.addPhoto" "write" ["gallery_id"; "photo_id"];
  mkDoc "flickr.galleries.create" "write" ["title"; "description"];
  mkDoc "flickr.galleries.editMeta" "write" ["gallery_id"; "title"];
  mkDoc "flickr.galleries.editPhoto" "write" ["gallery_id"; "photo_id"; "comment"];
  mkDoc "flickr.galleries.editPhotos" "write" ["gallery_id"; "primary_photo_id"; "photo_ids"];
  mkDoc "flickr.galleries.getInfo" "none" ["gallery_id"];
  mkDoc "flickr.galleries.getList" "none" ["user_id"];
  mkDoc "flickr.galleries.getListForPhoto" "none" ["photo_id"];
  mkDoc "flickr.galleries.getPhotos" "none" ["gallery_id"];
  mkDoc "flickr.groups.browse" "read" [];
  mkDoc "flickr.groups.getInfo" "none" ["group_id"];
  mkDoc "flickr.groups.join" "write" ["group_id"];
  mkDoc "flickr.groups.joinRequest" "write" ["group_id"; "message"; "accept_rules"];
  mkDoc "flickr.groups.leave" "delete" ["group_id"];
  mkDoc "flickr.groups.search" "none" ["text"];
  mkDoc "flickr.groups.discuss.replies.add" "write" ["group_id"; "topic_id"; "message"];
  mkDoc "flickr.groups.discuss.replies.delete" "delete" ["group_id"; "topic_id"; "reply_id"];
  mkDoc "flickr.groups.discuss.replies.edit" "write" ["group_id"; "topic_id"; "reply_id"; "message"];
  mkDoc "flickr.groups.discuss.replies.getInfo" "none" ["group_id"; "topic_id"; "reply_id"];
  mkDoc "flickr.groups.discuss.replies.getList" "none" ["group_id"; "topic_id"; "per_page"];
  mkDoc "flickr.groups.discuss.topics.add" "write" ["group_id"; "subject"; "message"];
  mkDoc "flickr.groups.discuss.topics.getInfo" "none" ["group_id"; "topic_id"];
  mkDoc "flickr.groups.discuss.topics.getList" "none" ["group_id"];
  mkDoc "flickr.groups.members.getList" "read" ["group_id"];
  mkDoc "flickr.groups.pools.add" "write" ["photo_id"; "group_id"];
  mkDoc "flickr.groups.pools.getContext" "none" ["photo_id"; "group_id"];
  mkDoc "flickr.groups.pools.getGroups" "read" [];
  mkDoc "flickr.groups.pools.getPhotos" "none" ["group_id"];
  mkDoc "flickr.groups.pools.remove" "write" ["photo_id"; "group_id"];
  mkDoc "flickr.interestingness.getList" "none" [];
  mkDoc "flickr.machinetags.getNamespaces" "none" [];
  mkDoc "flickr.machinetags.getPairs" "none" [];
  mkDoc "flickr.machinetags.getPredicates" "none" [];
  mkDoc "flickr.machinetags.getRecentValues" "none" [];
  mkDoc "flickr.machinetags.getValues" "none" ["namespace"; "predicate"];
  mkDoc "flickr.panda.getList" "none" [];
  mkDoc "flickr.panda.getPhotos" "none" ["panda_name"];
  mkDoc "flickr.people.findByEmail" "none" ["find_email"];
  mkDoc "flickr.people.findByUsername" "none" ["username"];
  mkDoc "flickr.people.getGroups" "read" ["user_id"];
  mkDoc "flickr.people.getInfo" "none" ["user_id"];
  mkDoc "flickr.people.getLimits" "read" [];
  mkDoc "flickr.people.getPhotos" "none" ["user_id"];
  mkDoc "flickr.people.getPhotosOf" "none" ["user_id"];
  mkDoc "flickr.people.getPublicGroups" "none" ["user_id"];
  mkDoc "flickr.people.getPublicPhotos" "none" ["user_id"];
  mkDoc "flickr.people.getUploadStatus" "read" [];
  mkDoc "flickr.photos.addTags" "write" ["photo_id"; "tags"];
  mkDoc "flickr.photos.delete" "delete" ["photo_id"];
  mkDoc "flickr.photos.getAllContexts" "none" ["photo_id"];
  mkDoc "flickr.photos.getContactsPhotos" "read" [];
  mkDoc "flickr.photos.getContactsPublicPhotos" "none" ["user_id"];
  mkDoc "flickr.photos.getContext" "none" ["photo_id"];
  mkDoc "flickr.photos.getCounts" "read" [];
  mkDoc "flickr.photos.getExif" "none" ["photo_id"];
  mkDoc "flickr.photos.getFavorites" "none" ["photo_id"];
  mkDoc "flickr.photos.getInfo" "none" ["photo_id"];
  mkDoc "flickr.photos.getNotInSet" "read" [];
  mkDoc "flickr.photos.getPerms" "read" ["photo_id"];
  mkDoc "flickr.photos.getPopular" "none" [];
  mkDoc "flickr.photos.getRecent" "none" [];
  mkDoc "flickr.photos.getSizes" "none" ["photo_id"];
  mkDoc "flickr.photos.getUntagged" "read" [];
  mkDoc "flickr.photos.getWithGeoData" "read" [];
  mkDoc "flickr.photos.getWithoutGeoData" "read" [];
  mkDoc "flickr.photos.recentlyUpdated" "read" ["min_date"];
  mkDoc "flickr.photos.removeTag" "write" ["tag_id"];
  mkDoc "flickr.photos.search" "none" [];
  mkDoc "flickr.photos.setContentType" "write" ["photo_id"; "content_type"];
  mkDoc "flickr.photos.setDates" "write" ["photo_id"];
  mkDoc "flickr.photos.setMeta" "write" ["photo_id"];
  mkDoc "flickr.photos.setPerms" "write" ["photo_id"; "is_public"; "is_friend"; "is_family"];
  mkDoc "flickr.photos.setSafetyLevel" "write" ["photo_id"];
  mkDoc "flickr.photos.setTags" "write" ["photo_id"; "tags"];
  mkDoc "flickr.photos.comments.addComment" "write" ["photo_id"; "comment_text"];
  mkDoc "flickr.photos.comments.deleteComment" "write" ["comment_id"];
  mkDoc "flickr.photos.comments.editComment" "write" ["comment_id"; "comment_text"];
  mkDoc "flickr.photos.comments.getList" "none" ["photo_id"];
  mkDoc "flickr.photos.comments.getRecentForContacts" "read" [];
  mkDoc "flickr.photos.geo.batchCorrectLocation" "write" ["lat"; "lon"; "accuracy"];
  mkDoc "flickr.photos.geo.correctLocation" "write" ["photo_id"; "foursquare_id"];
  mkDoc "flickr.photos.geo.getLocation" "none" ["photo_id"];
  mkDoc "flickr.photos.geo.getPerms" "read" ["photo_id"];
  mkDoc "flickr.photos.geo.photosForLocation" "read" ["lat"; "lon"];
  mkDoc "flickr.photos.geo.removeLocation" "write" ["photo_id"];
  mkDoc "flickr.photos.geo.setContext" "write" ["photo_id"; "context"];
  mkDoc "flickr.photos.geo.setLocation" "write" ["photo_id"; "lat"; "lon"];
  mkDoc "flickr.photos.geo.setPerms" "write" ["is_public"; "is_contact"; "is_friend"; "is_family"; "photo_id"];
  mkDoc "flickr.photos.licenses.getInfo" "none" [];
  mkDoc "flickr.photos.licenses.setLicense" "write" ["photo_id"; "license_id"];
  mkDoc "flickr.photos.notes.add" "write" ["photo_id"; "note_x"; "note_y"; "note_w"; "note_h"; "note_text"];
  mkDoc "flickr.photos.notes.delete" "write" ["note_id"];
  mkDoc "flickr.photos.notes.edit" "write" ["note_id"; "note_x"; "note_y"; "note_w"; "note_h"; "note_text"];
  mkDoc "flickr.photos.people.add" "write" ["photo_id"; "user_id"];
  mkDoc "flickr.photos.people.delete" "write" ["photo_id"; "user_id"];
  mkDoc "flickr.photos.people.deleteCoords" "write" ["photo_id"; "user_id"];
  mkDoc "flickr.photos.people.editCoords" "write" ["photo_id"; "user_id"; "person_x"; "person_y"; "person_w"; "person_h"];
  mkDoc "flickr.photos.people.getList" "none" ["photo_id"];
  mkDoc "flickr.photos.suggestions.approveSuggestion" "write" ["suggestion_id"];
  mkDoc "flickr.photos.suggestions.getList" "read" [];
  mkDoc "flickr.photos.suggestions.rejectSuggestion" "write" ["suggestion_id"];
  mkDoc "flickr.photos.suggestions.removeSuggestion" "write" ["suggestion_id"];
  mkDoc "flickr.photos.suggestions.suggestLocation" "write" ["photo_id"; "lat"; "lon"];
  mkDoc "flickr.photos.transform.rotate" "write" ["photo_id"; "degrees"];
  mkDoc "flickr.photos.upload.checkTickets" "none" ["tickets"];
  mkDoc "flickr.photosets.addPhoto" "write" ["photoset_id"; "photo_id"];
  mkDoc "flickr.photosets.create" "write" ["title"; "primary_photo_id"];
  mkDoc "flickr.photosets.delete" "write" ["photoset_id"];
  mkDoc "flickr.photosets.editMeta" "write" ["photoset_id"; "title"];
  mkDoc "flickr.photosets.editPhotos" "write" ["photoset_id"; "primary_photo_id"; "photo_ids"];
  mkDoc "flickr.photosets.getContext" "none" ["photo_id"; "photoset_id"];
  mkDoc "flickr.photosets.getInfo" "none" ["photoset_id"; "user_id"];
  mkDoc "flickr.photosets.getList" "none" [];
  mkDoc "flickr.photosets.getPhotos" "none" ["photoset_id"; "user_id"];
  mkDoc "flickr.photosets.orderSets" "write" ["photoset_ids"];
  mkDoc "flickr.photosets.removePhoto" "write" ["photoset_id"; "photo_id"];
  mkDoc "flickr.photosets.removePhotos" "write" ["photoset_id"; "photo_ids"];
  mkDoc "flickr.photosets.reorderPhotos" "write" ["photoset_id"; "photo_ids"];
  mkDoc "flickr.photosets.setPrimaryPhoto" "write" ["photoset_id"; "photo_id"];
  mkDoc "flickr.photosets.comments.addComment" "write" ["photoset_id"; "comment_text"];
  mkDoc "flickr.photosets.comments.deleteComment" "write" ["comment_id"];
  mkDoc "flickr.photosets.comments.editComment" "write" ["comment_id"; "comment_text"];
  mkDoc "flickr.photosets.comments.getList" "none" ["photoset_id"];
  mkDoc "flickr.places.find" "none" ["query"];
  mkDoc "flickr.places.findByLatLon" "none" ["lat"; "lon"];
  mkDoc "flickr.places.getChildrenWithPhotosPublic" "none" [];
  mkDoc "flickr.places.getInfo" "none" [];
  mkDoc "flickr.places.getInfoByUrl" "none" ["url"];
  mkDoc "flickr.places.getPlaceTypes" "none" [];
  mkDoc "flickr.places.getShapeHistory" "none" [];
  mkDoc "flickr.places.getTopPlacesList" "none" ["place_type_id"];
  mkDoc "flickr.places.placesForBoundingBox" "none" ["bbox"];
  mkDoc "flickr.places.placesForContacts" "read" [];
  mkDoc "flickr.places.placesForTags" "none" ["place_type_id"];
  mkDoc "flickr.places.placesForUser" "read" [];
  mkDoc "flickr.places.resolvePlaceId" "none" ["place_id"];
  mkDoc "flickr.places.resolvePlaceURL" "none" ["url"];
  mkDoc "flickr.places.tagsForPlace" "none" [];
  mkDoc "flickr.prefs.getContentType" "read" [];
  mkDoc "flickr.prefs.getGeoPerms" "read" [];
  mkDoc "flickr.prefs.getHidden" "read" [];
  mkDoc "flickr.prefs.getPrivacy" "read" [];
  mkDoc "flickr.prefs.getSafetyLevel" "read" [];
  mkDoc "flickr.profile.getProfile" "none" ["user_id"];
  mkDoc "flickr.push.getSubscriptions" "read" [];
  mkDoc "flickr.push.getTopics" "none" [];
  mkDoc "flickr.push.subscribe" "read" ["topic"; "callback"; "verify"];
  mkDoc "flickr.push.unsubscribe" "read" ["topic"; "callback"; "verify"];
  mkDoc "flickr.reflection.getMethodInfo" "none" ["method_name"];
  mkDoc "flickr.reflection.getMethods" "none" [];
  mkDoc "flickr.stats.getCSVFiles" "read" [];
  mkDoc "flickr.stats.getCollectionDomains" "read" ["date"];
  mkDoc "flickr.stats.getCollectionReferrers" "read" ["date"; "domain"];
  mkDoc "flickr.stats.getCollectionStats" "read" ["date"; "collection_id"];
  mkDoc "flickr.stats.getPhotoDomains" "read" ["date"];
  mkDoc "flickr.stats.getPhotoReferrers" "read" ["date"; "domain"];
  mkDoc "flickr.stats.getPhotoStats" "read" ["date"; "photo_id"];
  mkDoc "flickr.stats.getPhotosetDomains" "read" ["date"];
  mkDoc "flickr.stats.getPhotosetReferrers" "read" ["date"; "domain"];
  mkDoc "flickr.stats.getPhotosetStats" "read" ["date"; "photoset_id"];
  mkDoc "flickr.stats.getPhotostreamDomains" "read" ["date"];
  mkDoc "flickr.stats.getPhotostreamReferrers" "read" ["date"; "domain"];
  mkDoc "flickr.stats.getPhotostreamStats" "read" ["date"];
  mkDoc "flickr.stats.getPopularPhotos" "read" [];
  mkDoc "flickr.stats.getTotalViews" "read" [];
  mkDoc "flickr.tags.getClusterPhotos" "none" ["tag"; "cluster_id"];
  mkDoc "flickr.tags.getClusters" "none" ["tag"];
  mkDoc "flickr.tags.getHotList" "none" [];
  mkDoc "flickr.tags.getListPhoto" "none" ["photo_id"];
  mkDoc "flickr.tags.getListUser" "none" [];
  mkDoc "flickr.tags.getListUserPopular" "none" [];
  mkDoc "flickr.tags.getListUserRaw" "none" [];
  mkDoc "flickr.tags.getMostFrequentlyUsed" "read" [];
  mkDoc "flickr.tags.getRelated" "none" ["tag"];
  mkDoc "flickr.test.echo" "none" [];
  mkDoc "flickr.test.login" "read" [];
  mkDoc "flickr.test.null" "read" [];
  mkDoc "flickr.testimonials.addTestimonial" "write" ["user_id"; "testimonial_text"];
  mkDoc "flickr.testimonials.approveTestimonial" "write" ["testimonial_id"];
  mkDoc "flickr.testimonials.deleteTestimonial" "write" ["testimonial_id"];
  mkDoc "flickr.testimonials.editTestimonial" "write" ["user_id"; "testimonial_id"; "testimonial_text"];
  mkDoc "flickr.testimonials.getAllTestimonialsAbout" "read" [];
  mkDoc "flickr.testimonials.getAllTestimonialsAboutBy" "read" ["user_id"];
  mkDoc "flickr.testimonials.getAllTestimonialsBy" "read" [];
  mkDoc "flickr.testimonials.getPendingTestimonialsAbout" "read" [];
  mkDoc "flickr.testimonials.getPendingTestimonialsAboutBy" "read" ["user_id"];
  mkDoc "flickr.testimonials.getPendingTestimonialsBy" "read" [];
  mkDoc "flickr.testimonials.getTestimonialsAbout" "none" ["user_id"];
  mkDoc "flickr.testimonials.getTestimonialsAboutBy" "read" ["user_id"];
  mkDoc "flickr.testimonials.getTestimonialsBy" "none" ["user_id"];
  mkDoc "flickr.urls.getGroup" "none" ["group_id"];
  mkDoc "flickr.urls.getUserPhotos" "none" [];
  mkDoc "flickr.urls.getUserProfile" "none" [];
  mkDoc "flickr.urls.lookupGallery" "none" ["url"];
  mkDoc "flickr.urls.lookupGroup" "none" ["url"];
  mkDoc "flickr.urls.lookupUser" "none" ["url"]
].

(** The namespaces the constructor stores the client in, in the order of the
    assignment chain (lines 393-433). *)
Definition namespaces : list string := [
  "activity"; "auth"; "auth.oauth"; "blogs"; "cameras"; "collections";
   "commons"; "contacts"; "favorites"; "galleries"; "groups";
   "groups.discuss"; "groups.discuss.replies"; "groups.discuss.topics";
   "groups.members"; "groups.pools"; "interestingness"; "machinetags";
   "panda"; "people"; "photos"; "photos.comments"; "photos.geo";
   "photos.licenses"; "photos.notes"; "photos.people"; "photos.suggestions";
   "photos.transform"; "photos.upload"; "photosets"; "photosets.comments";
   "places"; "prefs"; "profile"; "push"; "reflection"; "stats"; "tags";
   "test"; "testimonials"; "urls"
].

(** The namespace objects declared on the prototype,
    [Flickr.prototype.<namespace> = {}], in source order. *)
Definition declared_namespaces : list string := [
  "activity"; "auth"; "auth.oauth"; "blogs"; "cameras"; "collections";
   "commons"; "contacts"; "favorites"; "galleries"; "groups";
   "groups.discuss"; "groups.discuss.replies"; "groups.discuss.topics";
   "groups.members"; "groups.pools"; "interestingness"; "machinetags";
   "panda"; "people"; "photos"; "photos.comments"; "photos.geo";
   "photos.licenses"; "photos.notes"; "photos.people"; "photos.suggestions";
   "photos.transform"; "photos.upload"; "photosets"; "photosets.comments";
   "places"; "prefs"; "profile"; "push"; "reflection"; "stats"; "tags";
   "test"; "testimonials"; "urls"
].

(** ** The prototype's namespace objects

    [this.photos], [this.test], ... of a Flickr object are the namespace
    objects of [Flickr.prototype], which all Flickr objects share; only
    [this._] is a property of the object itself.  The store maps a namespace
    to the client under its [_], once a constructor has put one there. *)

(** [this.activity._ = this.auth._ = ... = this.urls._ = client]: the chain
    assigns from the right. *)
Definition assign_namespaces (client : Client) (proto : gmap string Client)
    : gmap string Client :=
  foldr (λ ns store, <[ ns := client ]> store) proto namespaces.

(** The constructor run on a store: the client it leaves under the new
    object's own [_], and the store afterwards.  [createClient] is evaluated
    before any assignment, so a throw leaves the store as it was. *)
Definition Flickr_shared (how : invocation) (auth : value Plugin)
    (opts : option Options) (proto : gmap string Client)
    : outcome Client * gmap string Client :=
  let opts :=
    match how with
    | WithoutNew => None   (* return new Flickr(auth) *)
    | WithNew => opts
    end in
  match createClient auth opts with
  | Return client => (Return client, assign_namespaces client proto)
  | Throw e => (Throw e, proto)
  end.

(** What a call of an operation comes to: it completes (returns or throws an
    [Error]), or it reaches [this._(...)] while [_] is undefined, which is a
    TypeError of the engine. *)
Inductive call_result : Type :=
  | Completed (o : outcome Request)
  | NotAFunction.

(** [flickr.<namespace>.<function>(args)] on any Flickr object, with the
    prototype's namespaces in state [proto]. *)
Definition invoke (proto : gmap string Client) (op : Operation)
    (args : option (gmap string (value unit))) : call_result :=
  match validate_all args (op_required op) with
  | Throw e => Completed (Throw e)
  | Return _ =>
      match proto !! op_namespace op with
      | Some client => Completed (client (op_verb op) (op_name op) args)
      | None => NotAFunction
      end
  end.


(** ** The query string, and calls with null *)

(** Modelled from the spec: the query string a request is sent with.
    [lib/request] keeps the parameters by name, so of several attachments of
    one name the last one counts. *)
Definition req_qs (req : Request) : gmap string (value unit) :=
  foldl (λ qs p, <[ p.1 := p.2 ]> qs) ∅ (req_query req).

(** The contract of an auth decorator, by name: it leaves the target and the
    [method] parameter as they are. *)
Definition keeps_method (plugin : Plugin) : Prop :=
  ∀ req,
    req_url (plugin req) = req_url req ∧
    req_qs (plugin req) !! "method" = req_qs req !! "method".

(** The integers a JavaScript number holds exactly
    (up to Number.MAX_SAFE_INTEGER in magnitude). *)
Definition safe_integer (n : Z) : Prop := (Z.abs n < 2 ^ 53)%Z.

(** What the closure can be handed as [args]: nothing, [null], or an
    object. *)
Inductive js_args : Type :=
  | ArgsUndefined
  | ArgsNull
  | ArgsObject (m : gmap string (value unit)).

(** How a call of the closure ends: as [build] has it, or with the TypeError
    the engine raises when a property of [null] is read. *)
Inductive closure_result : Type :=
  | Built (o : outcome Request)
  | TypeError.

(** The closure on any [args].  [typeof null] is not 'undefined', so line 86
    leaves [null] in place and line 90 reads [args.extras] of it. *)
Definition build_any (auth : Plugin) (host verb method : string)
    (args : js_args) : closure_result :=
  match args with
  | ArgsUndefined => Built (build auth host verb method None)
  | ArgsNull => TypeError
  | ArgsObject m => Built (build auth host verb method (Some m))
  end.

(** Modelled from the spec: the parameters [validate] finds in [args];
    [null], like a call without [args], holds none.  No property below rests
    on what [validate] does with [null]. *)
Definition args_of (args : js_args) : option (gmap string (value unit)) :=
  match args with
  | ArgsObject m => Some m
  | ArgsUndefined | ArgsNull => None
  end.

(** Calling operation [op] with any [args] on a namespace whose client is the
    closure for [auth] and [host]. *)
Definition run_any (op : Operation) (auth : Plugin) (host : string)
    (args : js_args) : closure_result :=
  match validate_all (args_of args) (op_required op) with
  | Throw e => Built (Throw e)
  | Return _ => build_any auth host (op_verb op) (op_name op) args
  end.


(** * Properties *)

(** ** Sets of field names *)

Lemma Set_add_elem s x y : y ∈ Set_add s x ↔ y ∈ s ∨ y = x.
Proof.
  unfold Set_add. case_decide as Hx.
  - split; [by left|]. intros [?| ->]; done.
  - rewrite elem_of_app, list_elem_of_singleton. done.
Qed.

Lemma Set_add_NoDup s x : NoDup s → NoDup (Set_add s x).
Proof.
  intros Hs. unfold Set_add. case_decide as Hx; [done|].
  apply NoDup_app. split_and!; [done| |apply NoDup_singleton].
  intros y Hy Hy'. apply list_elem_of_singleton in Hy'. by subst.
Qed.

Lemma foldl_Set_add_elem l : ∀ acc y, y ∈ foldl Set_add acc l ↔ y ∈ acc ∨ y ∈ l.
Proof.
  induction l as [|x l IH]; intros acc y; simpl.
  - rewrite elem_of_nil. tauto.
  - rewrite IH, Set_add_elem, elem_of_cons. tauto.
Qed.

Lemma foldl_Set_add_NoDup l : ∀ acc, NoDup acc → NoDup (foldl Set_add acc l).
Proof.
  induction l as [|x l IH]; intros acc Hacc; simpl; [done|].
  by apply IH, Set_add_NoDup.
Qed.

Lemma Array_from_elem added y : y ∈ Array_from added ↔ y ∈ added.
Proof.
  unfold Array_from. rewrite foldl_Set_add_elem, elem_of_nil. tauto.
Qed.

Lemma Array_from_NoDup added : NoDup (Array_from added).
Proof. apply foldl_Set_add_NoDup, NoDup_nil_2. Qed.

Lemma occurrences_not_elem x l : x ∉ l → occurrences x l = 0.
Proof.
  unfold occurrences. induction l as [|y l IH]; intros Hx; [done|].
  apply not_elem_of_cons in Hx as [Hne Hx].
  rewrite filter_cons_False by congruence. by apply IH.
Qed.

Lemma occurrences_NoDup x l : NoDup l → x ∈ l → occurrences x l = 1.
Proof.
  induction 1 as [|y l Hy Hl IH]; intros Hx.
  - by apply elem_of_nil in Hx.
  - unfold occurrences. apply elem_of_cons in Hx as [->|Hx].
    + rewrite filter_cons_True by done. simpl.
      f_equal. by apply occurrences_not_elem.
    + rewrite filter_cons_False; [by apply IH|].
      intros ->. done.
Qed.

Lemma Set_add_present s x : x ∈ s → Set_add s x = s.
Proof. intros Hx. unfold Set_add. by rewrite decide_True. Qed.

Lemma Set_add_fresh s x : x ∉ s → Set_add s x = s ++ [x].
Proof. intros Hx. unfold Set_add. by rewrite decide_False. Qed.

(** The Set keeps the order in which values were first added. *)
Lemma foldl_Set_add_app l : ∀ a b,
  foldl Set_add (a ++ b) l = a ++ foldl Set_add b (filter (λ y, y ∉ a) l).
Proof.
  induction l as [|x l IH]; intros a b; simpl; [done|].
  destruct (decide (x ∈ a)) as [Ha|Ha].
  - rewrite Set_add_present by (apply elem_of_app; by left).
    rewrite filter_cons_False by (intros ?; done). apply IH.
  - rewrite filter_cons_True by done. simpl.
    destruct (decide (x ∈ b)) as [Hb|Hb].
    + rewrite Set_add_present by (apply elem_of_app; by right).
      rewrite (Set_add_present b) by done. apply IH.
    + rewrite Set_add_fresh by (rewrite elem_of_app; tauto).
      rewrite (Set_add_fresh b) by done.
      rewrite <-app_assoc. apply IH.
Qed.

Lemma foldl_Set_add_NoDup_id l : ∀ acc,
  NoDup (acc ++ l) → foldl Set_add acc l = acc ++ l.
Proof.
  induction l as [|x l IH]; intros acc Hnd; simpl.
  - by rewrite app_nil_r.
  - assert (x ∉ acc) as Hx.
    { apply NoDup_app in Hnd as (_ & Hdisj & _).
      intros Hin. apply (Hdisj x Hin). by left. }
    rewrite Set_add_fresh by done.
    rewrite IH; [by rewrite <-app_assoc|].
    by rewrite <-app_assoc.
Qed.

(** A list without duplicates is the iteration order of its own Set. *)
Lemma Array_from_NoDup_id l : NoDup l → Array_from l = l.
Proof. intros Hl. by apply (foldl_Set_add_NoDup_id l []). Qed.

Lemma Array_from_idemp l : Array_from (Array_from l) = Array_from l.
Proof. apply Array_from_NoDup_id, Array_from_NoDup. Qed.

Lemma Array_from_cons x l :
  Array_from (x :: l) = x :: Array_from (filter (λ y, y ≠ x) l).
Proof.
  unfold Array_from. simpl.
  rewrite Set_add_fresh by apply not_elem_of_nil. simpl.
  rewrite <-(app_nil_r [x]), foldl_Set_add_app. simpl.
  do 2 f_equal. apply list_filter_iff. intros y.
  rewrite list_elem_of_singleton. done.
Qed.

(** ** split and join *)

Lemma split_cons sep s : ∃ w ws, split sep s = w :: ws.
Proof.
  induction s as [|c s (w & ws & IH)]; simpl; [by eauto|].
  destruct (Ascii.eqb c sep); [by eauto|]. rewrite IH. eauto.
Qed.

Lemma join_cons_cons sep x y l :
  join sep (x :: y :: l) = x +:+ sep +:+ join sep (y :: l).
Proof. done. Qed.

Lemma join_split sep s : join (String sep EmptyString) (split sep s) = s.
Proof.
  induction s as [|c s IH]; [done|]. simpl split.
  destruct (Ascii.eqb_spec c sep) as [->|Hne].
  - destruct (split_cons sep s) as (w & ws & Hs). rewrite Hs in *.
    by rewrite join_cons_cons, IH.
  - destruct (split_cons sep s) as (w & ws & Hs). rewrite Hs in *.
    destruct ws as [|w' ws]; simpl in *; by rewrite <-IH.
Qed.

Lemma split_no_sep sep s w : w ∈ split sep s → contains sep w = false.
Proof.
  revert w. induction s as [|c s IH]; intros w; simpl.
  - intros ->%list_elem_of_singleton. done.
  - destruct (Ascii.eqb_spec c sep) as [->|Hne].
    + intros [->|Hw]%elem_of_cons; [done|by apply IH].
    + destruct (split_cons sep s) as (v & vs & Hs). rewrite Hs in *.
      intros [->|Hw]%elem_of_cons.
      * simpl. apply Ascii.eqb_neq in Hne. rewrite Hne. simpl.
        apply IH. by left.
      * apply IH. by right.
Qed.

Lemma split_piece sep w : contains sep w = false → split sep w = [w].
Proof.
  induction w as [|c w IH]; [done|]. simpl.
  intros [Hc Hw]%orb_false_elim. rewrite Hc, IH by done. done.
Qed.

Lemma split_app sep w s :
  contains sep w = false →
  split sep (w +:+ String sep s) = w :: split sep s.
Proof.
  induction w as [|c w IH]; simpl.
  - intros _. by rewrite Ascii.eqb_refl.
  - intros [Hc Hw]%orb_false_elim. rewrite Hc, IH by done. done.
Qed.

Lemma split_join sep l :
  l ≠ [] → (∀ w, w ∈ l → contains sep w = false) →
  split sep (join (String sep EmptyString) l) = l.
Proof.
  induction l as [|x l IH]; [done|]. intros _ Hl.
  destruct l as [|y l].
  - simpl. apply split_piece, Hl. by left.
  - rewrite join_cons_cons.
    change (String sep EmptyString +:+ join (String sep EmptyString) (y :: l))
      with (String sep (join (String sep EmptyString) (y :: l))).
    rewrite split_app by (apply Hl; by left).
    f_equal. apply IH; [done|]. intros w Hw. apply Hl. by right.
Qed.

(** ** processExtras *)

Lemma processExtras_accepts {F} (extras : value F) fields :
  fields_of extras = Some fields →
  processExtras extras = Return (VString (join "," (Array_from fields))).
Proof. destruct extras; intros [= <-]; reflexivity. Qed.

Lemma processExtras_rejects {F} (extras : value F) :
  fields_of extras = None →
  processExtras extras = Throw (InvalidArgumentType "extras").
Proof. destruct extras; intros [=]; reflexivity. Qed.

Lemma fields_of_None {F} (extras : value F) :
  fields_of extras = None ↔
  typeof extras ≠ "string" ∧ Array_isArray extras = false
    ∧ instanceof_Set extras = false.
Proof.
  destruct extras; simpl; split; try done; try (intros (? & ? & ?); done).
Qed.

Example processExtras_tags :
  processExtras (F:=unit) (VArray ["tags"; "tags"; "views"])
  = Return (VString "tags,views").
Proof. reflexivity. Qed.

Example processExtras_string :
  processExtras (F:=unit) (VString "a,b,a") = Return (VString "a,b").
Proof. reflexivity. Qed.

Example processExtras_set :
  processExtras (F:=unit) (VSet ["views"; "tags"; "views"])
  = Return (VString "views,tags").
Proof. reflexivity. Qed.

(** The output for a string input, split at the commas again, is the list of
    its distinct fields. *)
Lemma processExtras_string_fields {F} (s : string) :
  ∃ out, processExtras (F:=F) (VString s) = Return (VString out)
    ∧ split comma out = Array_from (split comma s).
Proof.
  eexists. split; [reflexivity|].
  apply split_join.
  - destruct (split_cons comma s) as (w & ws & ->). by rewrite Array_from_cons.
  - intros w Hw. apply (proj1 (Array_from_elem _ _)) in Hw.
    exact (split_no_sep _ _ _ Hw).
Qed.

(** Normalizing a normalized string changes nothing. *)
Lemma processExtras_idempotent {F} (s out : string) :
  processExtras (F:=F) (VString s) = Return (VString out) →
  processExtras (F:=F) (VString out) = Return (VString out).
Proof.
  destruct (processExtras_string_fields (F:=F) s) as (out' & Hout & Hsplit).
  rewrite Hout. intros [= <-].
  rewrite (processExtras_accepts (VString out') _ eq_refl).
  rewrite Hsplit, Array_from_idemp, <-Hsplit.
  do 2 f_equal. exact (join_split comma out').
Qed.

(** A string whose fields are already distinct is returned as it is. *)
Lemma processExtras_distinct {F} (s : string) :
  NoDup (split comma s) →
  processExtras (F:=F) (VString s) = Return (VString s).
Proof.
  intros Hnd. rewrite (processExtras_accepts (VString s) _ eq_refl).
  rewrite Array_from_NoDup_id by done.
  do 2 f_equal. exact (join_split comma s).
Qed.

(** C1: for an [extras] that is a comma-separated string, an array of strings
    or a Set of strings, with or without duplicates, [processExtras] returns
    one string: the distinct field names joined by commas, each of them
    exactly once.  Read back as a comma-separated list, a result made of
    comma-free names is the list of distinct names itself.  The array
    ["tags","tags","views"] gives "tags,views". *)
Theorem processExtras_unique_fields {F} (extras : value F) (fields : list string) :
  fields_of extras = Some fields →
  processExtras extras = Return (VString (join "," (Array_from fields)))
  ∧ NoDup (Array_from fields)
  ∧ (∀ x, x ∈ Array_from fields ↔ x ∈ fields)
  ∧ (∀ x, x ∈ fields → occurrences x (Array_from fields) = 1)
  ∧ (fields ≠ [] → (∀ x, x ∈ fields → contains comma x = false) →
     split comma (join "," (Array_from fields)) = Array_from fields)
  ∧ processExtras (F:=F) (VArray ["tags"; "tags"; "views"])
    = Return (VString "tags,views").
Proof.
  intros Hf. split_and!.
  - by apply processExtras_accepts.
  - apply Array_from_NoDup.
  - apply Array_from_elem.
  - intros x Hx. apply occurrences_NoDup; [apply Array_from_NoDup|].
    by apply Array_from_elem.
  - intros Hne Hcomma. apply split_join.
    + destruct fields as [|x l]; [done|]. by rewrite Array_from_cons.
    + intros w Hw. by apply Hcomma, Array_from_elem.
  - reflexivity.
Qed.

Lemma processExtras_unique_fields_witness :
  processExtras (F:=unit) (VString "tags,views,tags") = Return (VString "tags,views")
  ∧ occurrences "tags" ["tags"; "views"] = 1.
Proof.
  destruct (processExtras_unique_fields (F:=unit) (VString "tags,views,tags")
              ["tags"; "views"; "tags"] eq_refl) as (Hout & _ & _ & Hocc & _).
  split; [exact Hout|]. apply (Hocc "tags"). by left.
Defined.

(** C3: an [extras] that is neither a string, an array nor a Set makes
    [processExtras] throw the invalid-type error, whose message names the
    parameter "extras"; no value is returned. *)
Theorem processExtras_invalid_type {F} (extras : value F) :
  typeof extras ≠ "string" →
  Array_isArray extras = false →
  instanceof_Set extras = false →
  processExtras extras = Throw (InvalidArgumentType "extras")
  ∧ returns (processExtras extras) = false
  ∧ InvalidArgumentType "extras"
    = Error ("Invalid type for argument " +:+ dquote +:+ "extras" +:+ dquote).
Proof.
  intros Hs Ha Hset.
  assert (processExtras extras = Throw (InvalidArgumentType "extras")) as ->.
  { apply processExtras_rejects, fields_of_None. done. }
  done.
Qed.

Lemma processExtras_invalid_type_witness :
  processExtras (F:=unit) (VNumber 0%float) = Throw (InvalidArgumentType "extras").
Proof.
  refine (proj1 (processExtras_invalid_type (F:=unit) (VNumber 0%float) _ _ _)).
  - discriminate.
  - reflexivity.
  - reflexivity.
Defined.

(** ** The request builder *)

Lemma append_assoc (s1 s2 s3 : string) : (s1 +:+ s2) +:+ s3 = s1 +:+ s2 +:+ s3.
Proof.
  induction s1 as [|a s1 IH]; [done|].
  change (String a ((s1 +:+ s2) +:+ s3) = String a (s1 +:+ s2 +:+ s3)).
  by rewrite IH.
Qed.

Lemma createAPIKeyPlugin_query key req :
  req_query (createAPIKeyPlugin key req) = req_query req ++ [("api_key", VString key)].
Proof.
  unfold createAPIKeyPlugin, query. simpl. by rewrite map_to_list_singleton.
Qed.

Lemma createAPIKeyPlugin_adds key : adds_credentials (createAPIKeyPlugin key).
Proof.
  intros req. split_and!; try done.
  intros p Hp. rewrite createAPIKeyPlugin_query. apply elem_of_app. by left.
Qed.

Lemma signing_plugin_adds : adds_credentials signing_plugin.
Proof. intros req. split_and!; done. Qed.

Lemma assembled_query host verb method args :
  req_query (assembled host verb method args)
  = ("method", VString method) :: map_to_list args.
Proof. unfold assembled. simpl. by rewrite map_to_list_singleton. Qed.


Lemma assembled_args host verb method args k v :
  args !! k = Some v → (k, v) ∈ req_query (assembled host verb method args).
Proof.
  intros Hk. rewrite assembled_query. right. by apply elem_of_map_to_list.
Qed.

Lemma createClient_decorator auth opts :
  createClient auth opts =
  match auth_decorator auth with
  | Some plugin => Return (build plugin (client_host opts))
  | None => Throw (MissingRequiredArgument "auth")
  end.
Proof. by destruct auth. Qed.

Lemma createClient_Return auth opts client :
  createClient auth opts = Return client →
  ∃ plugin, auth_decorator auth = Some plugin
    ∧ client = build plugin (client_host opts).
Proof.
  rewrite createClient_decorator.
  destruct (auth_decorator auth) as [plugin|]; [|done].
  intros [= <-]. eauto.
Qed.

Lemma normalize_extras_absent args :
  args !! "extras" = None → normalize_extras args = Return args.
Proof. intros H. unfold normalize_extras. by rewrite H. Qed.

Lemma normalize_extras_falsy args extras :
  args !! "extras" = Some extras → truthy extras = false →
  normalize_extras args = Return args.
Proof. intros H Ht. unfold normalize_extras. rewrite H. simpl. by rewrite Ht. Qed.

Lemma normalize_extras_accepts args extras fields :
  args !! "extras" = Some extras → truthy extras = true →
  fields_of extras = Some fields →
  normalize_extras args
  = Return (<[ "extras" := VString (join "," (Array_from fields)) ]> args).
Proof.
  intros H Ht Hf. unfold normalize_extras. rewrite H. simpl. rewrite Ht.
  by rewrite (processExtras_accepts _ _ Hf).
Qed.

Lemma normalize_extras_rejects args extras :
  args !! "extras" = Some extras → truthy extras = true →
  fields_of extras = None →
  normalize_extras args = Throw (InvalidArgumentType "extras").
Proof.
  intros H Ht Hf. unfold normalize_extras. rewrite H. simpl. rewrite Ht.
  by rewrite (processExtras_rejects _ Hf).
Qed.

Lemma normalize_extras_valid args :
  valid_args args = true →
  ∃ args', normalize_extras (default ∅ args) = Return args'.
Proof.
  unfold valid_args. destruct (default ∅ args !! "extras") as [extras|] eqn:He.
  - destruct (truthy extras) eqn:Ht; simpl.
    + intros [fields Hf]%bool_decide_eq_true.
      eexists. by eapply normalize_extras_accepts.
    + intros _. eexists. by eapply normalize_extras_falsy.
  - intros _. eexists. by apply normalize_extras_absent.
Qed.

Lemma build_assembled plugin host verb method args :
  build plugin host verb method args
  = args' ← normalize_extras (default ∅ args);
    mret (plugin (assembled host verb method args')).
Proof. reflexivity. Qed.

Lemma build_valid plugin host verb method args :
  valid_args args = true →
  ∃ args', normalize_extras (default ∅ args) = Return args'
    ∧ build plugin host verb method args
      = Return (plugin (assembled host verb method args')).
Proof.
  intros [args' Hn]%normalize_extras_valid. exists args'. split; [done|].
  rewrite build_assembled, Hn. done.
Qed.

Lemma build_Return plugin host verb method args r :
  build plugin host verb method args = Return r →
  ∃ args', normalize_extras (default ∅ args) = Return args'
    ∧ r = plugin (assembled host verb method args').
Proof.
  rewrite build_assembled.
  destruct (normalize_extras (default ∅ args)) as [args'|e]; [|done].
  intros [= <-]. eauto.
Qed.

Lemma normalize_extras_cases (args : gmap string (value unit)) :
  (normalize_extras args = Return args
   ∧ truthy (default VUndefined (args !! "extras")) = false)
  ∨ (∃ extras fields,
       args !! "extras" = Some extras ∧ truthy extras = true
       ∧ fields_of extras = Some fields
       ∧ normalize_extras args
         = Return (<[ "extras" := VString (join "," (Array_from fields)) ]> args))
  ∨ (∃ extras,
       args !! "extras" = Some extras ∧ truthy extras = true
       ∧ fields_of extras = None
       ∧ normalize_extras args = Throw (InvalidArgumentType "extras")).
Proof.
  assert (∃ o, args !! "extras" = o) as [[extras|] He] by eauto.
  - destruct (truthy extras) eqn:Ht.
    + destruct (fields_of extras) as [fields|] eqn:Hf.
      * right; left. exists extras, fields. split_and!; try done.
        exact (normalize_extras_accepts _ _ _ He Ht Hf).
      * right; right. exists extras. split_and!; try done.
        exact (normalize_extras_rejects _ _ He Ht Hf).
    + left. split; [exact (normalize_extras_falsy _ _ He Ht)|by rewrite He].
  - left. split; [by apply normalize_extras_absent|by rewrite He].
Qed.

Lemma normalize_extras_invalid args :
  valid_args args = false →
  normalize_extras (default ∅ args) = Throw (InvalidArgumentType "extras").
Proof.
  unfold valid_args.
  destruct (default ∅ args !! "extras") as [extras|] eqn:He; [|done].
  intros [Ht Hf]%orb_false_elim.
  apply negb_false_iff in Ht. apply bool_decide_eq_false in Hf.
  apply (normalize_extras_rejects _ extras He Ht).
  destruct (fields_of extras); [|done]. destruct Hf. eauto.
Qed.

Lemma normalize_extras_other_keys args args' :
  normalize_extras args = Return args' →
  dom args' = dom args ∧ (∀ k, k ≠ "extras" → args' !! k = args !! k).
Proof.
  destruct (normalize_extras_cases args)
    as [[-> _]|[(extras & fields & He & _ & _ & ->)|(? & _ & _ & _ & ->)]].
  - by intros [= <-].
  - intros [= <-]. split.
    + apply dom_insert_lookup_L. by rewrite He.
    + intros k Hk. by rewrite lookup_insert_ne.
  - done.
Qed.

(** The query string is keyed: what is attached later under a name replaces
    what was attached before. *)
Lemma foldl_insert_union (l : list (string * value unit)) :
  ∀ m0 : gmap string (value unit),
    NoDup l.*1 →
    foldl (λ qs p, <[ p.1 := p.2 ]> qs) m0 l = list_to_map l ∪ m0.
Proof.
  induction l as [|[k v] l IH]; intros m0 Hnd; simpl.
  - by rewrite (left_id_L ∅ (∪)).
  - apply NoDup_cons in Hnd as [Hk Hnd]. rewrite IH by done.
    rewrite <-insert_union_l. apply symmetry, insert_union_r.
    by apply not_elem_of_list_to_map_1.
Qed.

Lemma req_qs_request verb url : req_qs (request verb url) = ∅.
Proof. reflexivity. Qed.

Lemma req_qs_query obj req : req_qs (query obj req) = obj ∪ req_qs req.
Proof.
  unfold req_qs, query. simpl. rewrite foldl_app.
  rewrite foldl_insert_union by apply NoDup_fst_map_to_list.
  by rewrite list_to_map_to_list.
Qed.

Lemma req_qs_json req : req_qs (json req) = req_qs req.
Proof. reflexivity. Qed.

Lemma req_qs_assembled host verb method args :
  req_qs (assembled host verb method args)
  = args ∪ {[ "method" := VString method ]}.
Proof.
  unfold assembled. rewrite req_qs_json, !req_qs_query, req_qs_request.
  by rewrite (right_id_L ∅ (∪)).
Qed.

Lemma req_qs_assembled_method host verb method
    (args : gmap string (value unit)) :
  req_qs (assembled host verb method args) !! "method"
  = Some (default (VString method) (args !! "method")).
Proof.
  rewrite req_qs_assembled, lookup_union.
  destruct (args !! "method") as [v|]; [done|].
  by rewrite (left_id_L None (∪)), lookup_singleton_eq.
Qed.

Lemma req_qs_assembled_args host verb method
    (args : gmap string (value unit)) k v :
  args !! k = Some v → req_qs (assembled host verb method args) !! k = Some v.
Proof.
  intros Hk. rewrite req_qs_assembled. by apply lookup_union_Some_l.
Qed.

Lemma req_qs_createAPIKeyPlugin key req :
  req_qs (createAPIKeyPlugin key req)
  = <[ "api_key" := VString key ]> (req_qs req).
Proof.
  unfold createAPIKeyPlugin. rewrite req_qs_query.
  by rewrite insert_union_singleton_l.
Qed.

Lemma createAPIKeyPlugin_keeps_method key : keeps_method (createAPIKeyPlugin key).
Proof.
  intros req. split; [done|].
  rewrite req_qs_createAPIKeyPlugin. by rewrite lookup_insert_ne.
Qed.

Lemma signing_plugin_keeps_method : keeps_method signing_plugin.
Proof. intros req. by split. Qed.

Lemma client_host_default : client_host None = "api.flickr.com".
Proof. reflexivity. Qed.

Lemma client_host_custom h p :
  h ≠ EmptyString → p ≠ 0%Z →
  client_host (Some (mkOptions (Some h) (Some p))) = h +:+ ":" +:+ ToString p.
Proof.
  intros Hh Hp. unfold client_host. simpl.
  apply String.eqb_neq in Hh. apply Z.eqb_neq in Hp. by rewrite Hh, Hp.
Qed.

Lemma client_host_no_port h :
  h ≠ EmptyString → client_host (Some (mkOptions (Some h) None)) = h.
Proof.
  intros Hh. unfold client_host. simpl.
  apply String.eqb_neq in Hh. by rewrite Hh.
Qed.

Lemma client_host_port_only p :
  p ≠ 0%Z →
  client_host (Some (mkOptions None (Some p))) = "api.flickr.com:" +:+ ToString p.
Proof.
  intros Hp. unfold client_host. simpl.
  apply Z.eqb_neq in Hp. by rewrite Hp.
Qed.

Example build_echo :
  build (createAPIKeyPlugin "KEY123") (client_host None) "GET" "flickr.test.echo" (Some ∅)
  = Return {| req_verb := "GET";
              req_url := "https://api.flickr.com/services/rest";
              req_query := [("method", VString "flickr.test.echo");
                            ("api_key", VString "KEY123")];
              req_headers := [];
              req_parse := Some FlickrJson |}.
Proof. vm_compute. reflexivity. Qed.

Example build_extras_string :
  build (createAPIKeyPlugin "KEY123") (client_host None) "GET" "x.y"
    (Some {[ "extras" := VString "a,b,a" ]})
  = Return {| req_verb := "GET";
              req_url := "https://api.flickr.com/services/rest";
              req_query := [("method", VString "x.y"); ("extras", VString "a,b");
                            ("api_key", VString "KEY123")];
              req_headers := [];
              req_parse := Some FlickrJson |}.
Proof. vm_compute. reflexivity. Qed.

(** C2, as the code has it: the builder tests [args.extras] for truthiness
    before it normalizes.  A truthy [extras] that is a string, an array or a
    Set is replaced by the normalizer's output before the request is
    assembled; a truthy [extras] of any other shape makes the builder fail
    with the normalizer's invalid-type error; a falsy [extras] (0, the empty
    string, null, ...) is passed on as it is, without error. *)
Theorem build_normalizes_truthy_extras
    auth opts client plugin verb method
    (args : gmap string (value unit)) (extras : value unit) :
  createClient auth opts = Return client →
  auth_decorator auth = Some plugin →
  args !! "extras" = Some extras →
  (truthy extras = true → ∀ fields, fields_of extras = Some fields →
     processExtras extras = Return (VString (join "," (Array_from fields)))
     ∧ client verb method (Some args)
       = Return (plugin (assembled (client_host opts) verb method
           (<[ "extras" := VString (join "," (Array_from fields)) ]> args))))
  ∧ (truthy extras = true →
     typeof extras ≠ "string" → Array_isArray extras = false →
     instanceof_Set extras = false →
     client verb method (Some args) = Throw (InvalidArgumentType "extras"))
  ∧ (truthy extras = false →
     client verb method (Some args)
     = Return (plugin (assembled (client_host opts) verb method args))).
Proof.
  intros (plugin' & Hp & ->)%createClient_Return Hplugin Hextras.
  assert (plugin' = plugin) as -> by congruence.
  rewrite !build_assembled. simpl default. split_and!.
  - intros Ht fields Hf. split; [by apply processExtras_accepts|].
    by rewrite (normalize_extras_accepts _ _ _ Hextras Ht Hf).
  - intros Ht Hs Ha Hset.
    rewrite (normalize_extras_rejects _ _ Hextras Ht); [done|].
    by apply fields_of_None.
  - intros Ht. by rewrite (normalize_extras_falsy _ _ Hextras Ht).
Qed.

Lemma build_normalizes_truthy_extras_witness :
  build (createAPIKeyPlugin "KEY123") "api.flickr.com" "GET" "x.y"
    (Some {[ "extras" := VString "a,b,a" ]})
  = Return (createAPIKeyPlugin "KEY123"
      (assembled "api.flickr.com" "GET" "x.y"
         (<[ "extras" := VString "a,b" ]> {[ "extras" := VString "a,b,a" ]})))
  ∧ build (createAPIKeyPlugin "KEY123") "api.flickr.com" "GET" "x.y"
      (Some {[ "extras" := VNumber 1%float ]})
    = Throw (InvalidArgumentType "extras").
Proof.
  split.
  - exact (proj2 (proj1 (build_normalizes_truthy_extras
      (VString "KEY123") None _ _ "GET" "x.y"
      {[ "extras" := VString "a,b,a" ]} (VString "a,b,a")
      eq_refl eq_refl eq_refl) eq_refl ["a"; "b"; "a"] eq_refl)).
  - refine (proj1 (proj2 (build_normalizes_truthy_extras
      (VString "KEY123") None _ _ "GET" "x.y"
      {[ "extras" := VNumber 1%float ]} (VNumber 1%float)
      eq_refl eq_refl eq_refl)) eq_refl _ eq_refl eq_refl).
    discriminate.
Defined.

(** C2 fails as stated: with [extras] the number 0 the builder raises no
    error; it builds the request and sends 0 along as it is. *)
Lemma extras_zero_not_rejected :
  fields_of (VNumber (F:=unit) 0%float) = None
  ∧ (client ← createClient (VString "KEY123") None;
     client "GET" "x.y" (Some {[ "extras" := VNumber 0%float ]}))
    = Return {| req_verb := "GET";
                req_url := "https://api.flickr.com/services/rest";
                req_query := [("method", VString "x.y");
                              ("extras", VNumber 0%float);
                              ("api_key", VString "KEY123")];
                req_headers := [];
                req_parse := Some FlickrJson |}.
Proof. split; [reflexivity|]. vm_compute. reflexivity. Qed.

(** C4, as the code has it: whatever the verb, the method name and the valid
    [args] without a [method] entry of their own, the client builds a request
    that is sent with the query parameter [method] equal to the operation
    name it was given.  Its target is the services/rest endpoint of the
    configured host; without options that is
    https://api.flickr.com/services/rest, as for
    build("GET", "flickr.test.echo", {}).  The auth decorator is an API key,
    or a function that leaves target and [method] as they are. *)
Theorem build_method_parameter auth opts client plugin verb method args :
  createClient auth opts = Return client →
  auth_decorator auth = Some plugin →
  keeps_method plugin →
  valid_args args = true →
  default ∅ args !! "method" = None →
  ∃ r, client verb method args = Return r
    ∧ req_qs r !! "method" = Some (VString method)
    ∧ req_url r = "https://" +:+ client_host opts +:+ "/services/rest"
    ∧ (opts = None → req_url r = "https://api.flickr.com/services/rest").
Proof.
  intros (plugin' & Hp & ->)%createClient_Return Hplugin Hkeeps Hvalid Hmethod.
  assert (plugin' = plugin) as -> by congruence.
  destruct (build_valid plugin (client_host opts) verb method args Hvalid)
    as (args' & Hn & ->).
  destruct (normalize_extras_other_keys _ _ Hn) as [_ Hother].
  eexists. split; [done|].
  destruct (Hkeeps (assembled (client_host opts) verb method args'))
    as (Hurl & Hqs).
  split_and!.
  - rewrite Hqs, req_qs_assembled_method.
    rewrite Hother by discriminate. by rewrite Hmethod.
  - by rewrite Hurl.
  - intros ->. by rewrite Hurl.
Qed.

Lemma build_method_parameter_witness :
  ∃ r, build (createAPIKeyPlugin "KEY123") "api.flickr.com"
         "GET" "flickr.test.echo" (Some ∅) = Return r
    ∧ req_qs r !! "method" = Some (VString "flickr.test.echo")
    ∧ req_url r = "https://api.flickr.com/services/rest".
Proof.
  assert (valid_args (Some ∅) = true) as Hvalid by reflexivity.
  assert (default ∅ (Some (∅ : gmap string (value unit))) !! "method" = None)
    as Hmethod by reflexivity.
  destruct (build_method_parameter (VString "KEY123") None _ _
              "GET" "flickr.test.echo" (Some ∅) eq_refl eq_refl
              (createAPIKeyPlugin_keeps_method "KEY123") Hvalid Hmethod)
    as (r & Hr & Hm & _ & Hurl).
  exists r. split_and!; [exact Hr|exact Hm|exact (Hurl eq_refl)].
Defined.

(** C4 fails as stated: [args] are attached after [method], so an argument
    named method replaces the operation name.  With {method: "evil"}, which
    is a valid [args], the request for flickr.test.echo is sent with
    method=evil. *)
Lemma method_argument_overrides :
  valid_args (Some {[ "method" := VString "evil" ]}) = true
  ∧ (client ← createClient (VString "KEY123") None;
     r ← client "GET" "flickr.test.echo" (Some {[ "method" := VString "evil" ]});
     mret (req_qs r !! "method"))
    = Return (Some (VString "evil"))
  ∧ Some (VString (F:=unit) "evil") ≠ Some (VString "flickr.test.echo").
Proof. split_and!; [reflexivity|vm_compute; reflexivity|discriminate]. Qed.



Lemma client_host_cases (host : option string) (port : option Z) :
  client_host (Some (mkOptions host port))
  = (match host with
     | Some h => if String.eqb h EmptyString then "api.flickr.com" else h
     | None => "api.flickr.com"
     end)
    +:+ (match port with
         | Some p => if Z.eqb p 0 then EmptyString else ":" +:+ ToString p
         | None => EmptyString
         end).
Proof.
  assert (∀ s : string, s +:+ EmptyString = s) as Hnil.
  { intros s. induction s as [|c s IH]; [done|].
    change (String c (s +:+ EmptyString) = String c s). by rewrite IH. }
  unfold client_host. simpl.
  destruct port as [p|]; [destruct (Z.eqb p 0)|]; by rewrite ?Hnil.
Qed.

(** C6, as the code has it: the options are read by truthiness.  A client
    made with a non-empty host and a non-zero port targets
    https://host:port/services/rest in every request it builds; with a host
    and no port, or port 0, the target is https://host/services/rest; where
    no host is given, or the empty one, the host is api.flickr.com.  The port
    is a safe integer, printed in decimal; the auth decorator is an API key or
    a function that keeps to its contract. *)
Theorem client_target auth opts client plugin verb method args r :
  createClient auth opts = Return client →
  auth_decorator auth = Some plugin →
  adds_credentials plugin →
  client verb method args = Return r →
  (∀ host port h p, opts = Some (mkOptions host port) →
     host = Some h → h ≠ EmptyString →
     port = Some p → p ≠ 0%Z → safe_integer p →
     req_url r = "https://" +:+ h +:+ ":" +:+ ToString p +:+ "/services/rest")
  ∧ (∀ host port h, opts = Some (mkOptions host port) →
     host = Some h → h ≠ EmptyString →
     port = None ∨ port = Some 0%Z →
     req_url r = "https://" +:+ h +:+ "/services/rest")
  ∧ (∀ host port p, opts = Some (mkOptions host port) →
     host = None ∨ host = Some EmptyString →
     port = Some p → p ≠ 0%Z → safe_integer p →
     req_url r = "https://api.flickr.com:" +:+ ToString p +:+ "/services/rest")
  ∧ (∀ host port, opts = Some (mkOptions host port) →
     host = None ∨ host = Some EmptyString →
     port = None ∨ port = Some 0%Z →
     req_url r = "https://api.flickr.com/services/rest")
  ∧ (opts = None → req_url r = "https://api.flickr.com/services/rest").
Proof.
  intros (plugin' & Hp & ->)%createClient_Return Hplugin Hadds.
  assert (plugin' = plugin) as -> by congruence.
  intros (args' & _ & ->)%build_Return.
  destruct (Hadds (assembled (client_host opts) verb method args'))
    as (_ & -> & _ & _).
  change (req_url (assembled (client_host opts) verb method args'))
    with ("https://" +:+ client_host opts +:+ "/services/rest").
  split_and!.
  - intros host port h p -> -> Hh -> Hp0 _. rewrite client_host_cases.
    apply String.eqb_neq in Hh. apply Z.eqb_neq in Hp0. rewrite Hh, Hp0.
    by rewrite !append_assoc.
  - intros host port h -> -> Hh Hport. rewrite client_host_cases.
    apply String.eqb_neq in Hh. rewrite Hh.
    destruct Hport as [-> | ->]; by rewrite !append_assoc.
  - intros host port p -> Hhost -> Hp0 _. rewrite client_host_cases.
    apply Z.eqb_neq in Hp0. rewrite Hp0.
    destruct Hhost as [-> | ->]; by rewrite !append_assoc.
  - intros host port -> Hhost Hport. rewrite client_host_cases.
    destruct Hhost as [-> | ->]; destruct Hport as [-> | ->]; done.
  - by intros ->.
Qed.

Lemma client_target_witness :
  (∃ r, build (createAPIKeyPlugin "KEY123") "localhost:3000"
          "GET" "flickr.test.echo" None = Return r
     ∧ req_url r = "https://localhost:3000/services/rest")
  ∧ (∃ r, build (createAPIKeyPlugin "KEY123") "localhost"
            "GET" "flickr.test.echo" None = Return r
       ∧ req_url r = "https://localhost/services/rest").
Proof.
  split; (eexists; split; [reflexivity|]).
  - refine (proj1 (client_target (VString "KEY123")
             (Some (mkOptions (Some "localhost") (Some 3000%Z))) _ _
             "GET" "flickr.test.echo" None _
             eq_refl eq_refl (createAPIKeyPlugin_adds "KEY123") eq_refl)
           _ _ "localhost" 3000%Z eq_refl eq_refl _ eq_refl _ _);
      [discriminate|discriminate|reflexivity].
  - refine (proj1 (proj2 (client_target (VString "KEY123")
             (Some (mkOptions (Some "localhost") (Some 0%Z))) _ _
             "GET" "flickr.test.echo" None _
             eq_refl eq_refl (createAPIKeyPlugin_adds "KEY123") eq_refl))
           _ _ "localhost" eq_refl eq_refl _ (or_intror eq_refl)).
    discriminate.
Defined.

(** C6 fails as stated: a client made with host "localhost" and port 0 builds
    requests for https://localhost/services/rest, without the port; and one
    made with the empty host and port 3000 builds them for
    api.flickr.com:3000. *)
Lemma port_zero_not_in_target :
  ((client ← createClient (VString "KEY123")
               (Some (mkOptions (Some "localhost") (Some 0%Z)));
    r ← client "GET" "flickr.test.echo" None; mret (req_url r))
   = Return "https://localhost/services/rest"
   ∧ "https://localhost/services/rest"
     ≠ "https://" +:+ "localhost" +:+ ":" +:+ ToString 0 +:+ "/services/rest")
  ∧ ((client ← createClient (VString "KEY123")
                 (Some (mkOptions (Some EmptyString) (Some 3000%Z)));
      r ← client "GET" "flickr.test.echo" None; mret (req_url r))
     = Return "https://api.flickr.com:3000/services/rest"
     ∧ "https://api.flickr.com:3000/services/rest"
       ≠ "https://" +:+ EmptyString +:+ ":" +:+ ToString 3000 +:+ "/services/rest").
Proof.
  split; (split; [vm_compute; reflexivity | vm_compute; discriminate]).
Qed.

(** C7: an [auth] that is neither a string nor a function makes
    [createClient] throw the missing-argument error naming "auth"; no client
    comes out of it, with or without [new]. *)
Theorem createClient_missing_auth (auth : value Plugin) opts :
  typeof auth ≠ "string" →
  typeof auth ≠ "function" →
  createClient auth opts = Throw (MissingRequiredArgument "auth")
  ∧ returns (createClient auth opts) = false
  ∧ (∀ how, Flickr how auth opts = Throw (MissingRequiredArgument "auth"))
  ∧ MissingRequiredArgument "auth"
    = Error ("Missing required argument " +:+ dquote +:+ "auth" +:+ dquote).
Proof.
  intros Hs Hf.
  assert (createClient auth opts = Throw (MissingRequiredArgument "auth")) as H.
  { destruct auth; done. }
  assert (createClient auth None = Throw (MissingRequiredArgument "auth")) as H'.
  { destruct auth; done. }
  split_and!; [done|by rewrite H| |done].
  intros [|]; unfold Flickr, Flickr_init; [by rewrite H|by rewrite H'].
Qed.

Lemma createClient_missing_auth_witness :
  createClient VUndefined None = Throw (MissingRequiredArgument "auth")
  ∧ createClient (VNumber 42%float) None = Throw (MissingRequiredArgument "auth").
Proof.
  split.
  - exact (proj1 (createClient_missing_auth VUndefined None
                    ltac:(discriminate) ltac:(discriminate))).
  - exact (proj1 (createClient_missing_auth (VNumber 42%float) None
                    ltac:(discriminate) ltac:(discriminate))).
Defined.

(** ** Domain operations and the constructor *)

Example getInfo_with_photo_id :
  photos_getInfo {| underscore := build (createAPIKeyPlugin "KEY123") "api.flickr.com" |}
    (Some {[ "photo_id" := VString "25825763" ]})
  = Return {| req_verb := "GET";
              req_url := "https://api.flickr.com/services/rest";
              req_query := [("method", VString "flickr.photos.getInfo");
                            ("photo_id", VString "25825763");
                            ("api_key", VString "KEY123")];
              req_headers := [];
              req_parse := Some FlickrJson |}.
Proof. vm_compute. reflexivity. Qed.



(** C10: called without [new], [Flickr(auth, opts)] constructs the object
    again from [auth] alone, so [opts] is dropped: the client is the one for
    host api.flickr.com without port, whatever host and port [opts] named.
    Called with [new], the client is the one for the host and port of
    [opts]. *)
Theorem Flickr_without_new_drops_opts auth opts :
  Flickr WithoutNew auth opts = Flickr WithNew auth None
  ∧ (∀ plugin, auth_decorator auth = Some plugin →
       Flickr WithoutNew auth opts
       = Return {| passthrough := build plugin "api.flickr.com";
                   photos := {| underscore := build plugin "api.flickr.com" |} |}
       ∧ Flickr WithNew auth opts
         = Return {| passthrough := build plugin (client_host opts);
                     photos := {| underscore := build plugin (client_host opts) |} |})
  ∧ (∀ fl plugin verb method args r,
       Flickr WithoutNew auth opts = Return fl →
       auth_decorator auth = Some plugin →
       adds_credentials plugin →
       passthrough fl verb method args = Return r
       ∨ underscore (photos fl) verb method args = Return r →
       req_url r = "https://api.flickr.com/services/rest")
  ∧ (∀ h p, h ≠ EmptyString → p ≠ 0%Z →
       client_host (Some (mkOptions (Some h) (Some p)))
       = h +:+ ":" +:+ ToString p)
  ∧ (∀ fl plugin verb method args r,
       Flickr WithNew auth opts = Return fl →
       auth_decorator auth = Some plugin →
       adds_credentials plugin →
       passthrough fl verb method args = Return r
       ∨ underscore (photos fl) verb method args = Return r →
       req_url r = "https://" +:+ client_host opts +:+ "/services/rest").
Proof.
  assert (∀ o fl plugin verb method args r,
            Flickr_init auth o = Return fl →
            auth_decorator auth = Some plugin →
            adds_credentials plugin →
            passthrough fl verb method args = Return r
            ∨ underscore (photos fl) verb method args = Return r →
            req_url r = "https://" +:+ client_host o +:+ "/services/rest")
    as Htarget.
  { intros o fl plugin verb method args r Hfl Hp Hadds Hr.
    unfold Flickr_init in Hfl.
    rewrite createClient_decorator, Hp in Hfl. injection Hfl as <-.
    simpl in Hr.
    assert (build plugin (client_host o) verb method args = Return r) as Hb
      by (by destruct Hr).
    apply build_Return in Hb as (args' & _ & ->).
    by destruct (Hadds (assembled (client_host o) verb method args'))
      as (_ & -> & _ & _). }
  split_and!.
  - reflexivity.
  - intros plugin Hp. unfold Flickr, Flickr_init.
    rewrite !createClient_decorator, Hp. done.
  - intros fl plugin verb method args r Hfl. by apply (Htarget None).
  - intros h p. apply client_host_custom.
  - intros fl plugin verb method args r Hfl. by apply (Htarget opts).
Qed.

Lemma Flickr_without_new_drops_opts_witness :
  Flickr WithoutNew (VString "KEY123")
    (Some (mkOptions (Some "localhost") (Some 3000%Z)))
  = Return {| passthrough := build (createAPIKeyPlugin "KEY123") "api.flickr.com";
              photos := {| underscore :=
                build (createAPIKeyPlugin "KEY123") "api.flickr.com" |} |}
  ∧ Flickr WithNew (VString "KEY123")
      (Some (mkOptions (Some "localhost") (Some 3000%Z)))
    = Return {| passthrough := build (createAPIKeyPlugin "KEY123") "localhost:3000";
                photos := {| underscore :=
                  build (createAPIKeyPlugin "KEY123") "localhost:3000" |} |}.
Proof.
  exact (proj1 (proj2 (Flickr_without_new_drops_opts (VString "KEY123")
           (Some (mkOptions (Some "localhost") (Some 3000%Z)))))
         (createAPIKeyPlugin "KEY123") eq_refl).
Defined.

(** * Further properties *)

(** ** processExtras: order, emptiness, shapes *)

Lemma foldl_Set_add_sublist l : ∀ acc,
  ∃ k, foldl Set_add acc l = acc ++ k ∧ k `sublist_of` l.
Proof.
  induction l as [|x l IH]; intros acc; simpl.
  - exists []. by rewrite app_nil_r.
  - destruct (decide (x ∈ acc)) as [Hx|Hx].
    + rewrite Set_add_present by done.
      destruct (IH acc) as (k & -> & Hk). exists k. split; [done|].
      by apply sublist_cons.
    + rewrite Set_add_fresh by done.
      destruct (IH (acc ++ [x])) as (k & -> & Hk). exists (x :: k).
      split; [by rewrite <-app_assoc|]. by apply sublist_skip.
Qed.

Lemma Array_from_sublist l : Array_from l `sublist_of` l.
Proof.
  destruct (foldl_Set_add_sublist l []) as (k & Hk & Hsub).
  unfold Array_from. by rewrite Hk.
Qed.

Lemma Array_from_length l : length (Array_from l) ≤ length l.
Proof. apply sublist_length, Array_from_sublist. Qed.

Lemma Array_from_fixed l : Array_from l = l ↔ NoDup l.
Proof.
  split; [intros <-; apply Array_from_NoDup|apply Array_from_NoDup_id].
Qed.

Lemma append_not_empty s1 c s2 : s1 +:+ String c s2 ≠ EmptyString.
Proof. by destruct s1. Qed.

Lemma join_empty sep c l :
  sep = String c EmptyString →
  join sep l = EmptyString → l = [] ∨ l = [EmptyString].
Proof.
  intros ->. destruct l as [|x [|y l]]; simpl; [by left|intros ->; by right|].
  intros H. by apply append_not_empty in H.
Qed.

Lemma NoDup_all_empty (l : list string) :
  NoDup l → (∀ x, x ∈ l → x = EmptyString) → l = [] ∨ l = [EmptyString].
Proof.
  intros Hnd Hall. destruct l as [|a [|b l]]; [by left| |].
  - right. f_equal. apply Hall. by left.
  - assert (a = EmptyString) as -> by (apply Hall; by left).
    assert (b = EmptyString) as -> by (apply Hall; right; by left).
    apply NoDup_cons in Hnd as [Hnotin _]. destruct Hnotin. by left.
Qed.

Lemma Array_from_nil_inv l : Array_from l = [] → l = [].
Proof.
  destruct l as [|x l]; [done|]. by rewrite Array_from_cons.
Qed.

(** Normalizing the comma-join of a normalized list of comma-free names gives
    it back. *)
Lemma processExtras_again {F} (fields : list string) :
  (∀ x, x ∈ fields → contains comma x = false) →
  processExtras (F:=F) (VString (join "," (Array_from fields)))
  = Return (VString (join "," (Array_from fields))).
Proof.
  intros Hfree. destruct fields as [|x l]; [reflexivity|].
  rewrite (processExtras_accepts (VString _) _ eq_refl).
  assert (split comma (join "," (Array_from (x :: l))) = Array_from (x :: l))
    as ->.
  { apply split_join; [by rewrite Array_from_cons|].
    intros w Hw. by apply Hfree, Array_from_elem. }
  by rewrite Array_from_idemp.
Qed.

(** X1: the output lists the distinct fields in the order of their first
    occurrence in the input: it starts with the first field and goes on with
    the normalized rest, that field removed; hence it is a subsequence of the
    input. *)
Theorem processExtras_first_occurrence_order {F} (extras : value F) fields :
  fields_of extras = Some fields →
  processExtras extras = Return (VString (join "," (Array_from fields)))
  ∧ Array_from fields `sublist_of` fields
  ∧ (∀ x rest, fields = x :: rest →
       Array_from fields = x :: Array_from (filter (λ y, y ≠ x) rest)).
Proof.
  intros Hf. split_and!.
  - by apply processExtras_accepts.
  - apply Array_from_sublist.
  - intros x rest ->. apply Array_from_cons.
Qed.

Lemma processExtras_first_occurrence_order_witness :
  processExtras (F:=unit) (VArray ["views"; "tags"; "views"; "geo"; "tags"])
  = Return (VString "views,tags,geo").
Proof.
  exact (proj1 (processExtras_first_occurrence_order (F:=unit)
           (VArray ["views"; "tags"; "views"; "geo"; "tags"]) _ eq_refl)).
Defined.

(** X2: [processExtras] either returns a string or throws the invalid-type
    error for "extras"; it never falls off its end and returns undefined, and
    it throws nothing else. *)
Theorem processExtras_string_or_throw {F} (extras : value F) :
  (∃ s, processExtras extras = Return (VString s))
  ∨ processExtras extras = Throw (InvalidArgumentType "extras").
Proof.
  destruct (fields_of extras) as [fields|] eqn:Hf.
  - left. eexists. by apply processExtras_accepts.
  - right. by apply processExtras_rejects.
Qed.

(** X3: the output is the empty string exactly when the input has no field
    other than the empty one: the empty string, the empty array, the empty
    Set, or any number of empty names. *)
Theorem processExtras_empty_output {F} (extras : value F) fields :
  fields_of extras = Some fields →
  processExtras extras = Return (VString EmptyString)
  ↔ (∀ x, x ∈ fields → x = EmptyString).
Proof.
  intros Hf. rewrite (processExtras_accepts _ _ Hf). split.
  - intros [= Hjoin] x Hx. apply (proj2 (Array_from_elem fields x)) in Hx.
    destruct (join_empty "," comma _ eq_refl Hjoin) as [Hout|Hout];
      rewrite Hout in Hx.
    + by apply elem_of_nil in Hx.
    + by apply list_elem_of_singleton in Hx.
  - intros Hall.
    destruct (NoDup_all_empty (Array_from fields)) as [-> | ->];
      [apply Array_from_NoDup| |done..].
    intros x Hx. apply Hall. by apply (proj1 (Array_from_elem fields x)).
Qed.

Lemma processExtras_empty_output_witness :
  processExtras (F:=unit) (VArray []) = Return (VString EmptyString)
  ∧ processExtras (F:=unit) (VString EmptyString) = Return (VString EmptyString).
Proof.
  split.
  - apply (processExtras_empty_output (F:=unit) (VArray []) [] eq_refl).
    intros x Hx. by apply elem_of_nil in Hx.
  - apply (processExtras_empty_output (F:=unit) (VString EmptyString)
             [EmptyString] eq_refl).
    intros x Hx. by apply list_elem_of_singleton in Hx.
Defined.

(** X4: the three shapes agree.  A string gives what the array of its pieces
    gives, an array what the Set of its elements gives; and an array of
    comma-free names gives what its comma-joined string gives. *)
Theorem processExtras_shapes_agree {F} :
  (∀ s, processExtras (F:=F) (VString s) = processExtras (VArray (split comma s)))
  ∧ (∀ l, processExtras (F:=F) (VArray l) = processExtras (VSet l))
  ∧ (∀ l, l ≠ [] → (∀ x, x ∈ l → contains comma x = false) →
       processExtras (F:=F) (VString (join "," l)) = processExtras (VArray l)).
Proof.
  split_and!; [done|done|].
  intros l Hne Hfree.
  rewrite (processExtras_accepts (VString _) _ eq_refl).
  rewrite (processExtras_accepts (VArray l) _ eq_refl).
  assert (split comma (join "," l) = l) as ->
    by exact (split_join comma l Hne Hfree).
  done.
Qed.

Lemma processExtras_shapes_agree_witness :
  processExtras (F:=unit) (VString "tags,views,tags")
  = processExtras (VArray ["tags"; "views"; "tags"]).
Proof.
  refine (proj2 (proj2 (processExtras_shapes_agree (F:=unit)))
            ["tags"; "views"; "tags"] _ _).
  - discriminate.
  - intros x Hx. repeat (apply elem_of_cons in Hx as [->|Hx]; [reflexivity|]).
    by apply elem_of_nil in Hx.
Defined.

(** X5: for comma-free field names, normalizing the output again returns it
    unchanged. *)
Theorem processExtras_twice {F} (extras : value F) fields out :
  fields_of extras = Some fields →
  (∀ x, x ∈ fields → contains comma x = false) →
  processExtras extras = Return (VString out) →
  processExtras (F:=F) (VString out) = Return (VString out).
Proof.
  intros Hf Hfree. rewrite (processExtras_accepts _ _ Hf). intros [= <-].
  by apply processExtras_again.
Qed.

Lemma processExtras_twice_witness :
  processExtras (F:=unit) (VString "tags,views") = Return (VString "tags,views").
Proof.
  refine (processExtras_twice (F:=unit) (VArray ["tags"; "tags"; "views"])
            ["tags"; "tags"; "views"] "tags,views" eq_refl _ eq_refl).
  intros x Hx. repeat (apply elem_of_cons in Hx as [->|Hx]; [reflexivity|]).
  by apply elem_of_nil in Hx.
Defined.

(** An array element with a comma in it breaks this: the output of the first
    pass is split differently by the second. *)
Example processExtras_twice_comma :
  processExtras (F:=unit) (VArray ["a,b"; "a"]) = Return (VString "a,b,a")
  ∧ processExtras (F:=unit) (VString "a,b,a") = Return (VString "a,b").
Proof. split; reflexivity. Qed.

(** X6: the output never has more fields than the input, and it has the
    input's fields unchanged exactly when these are distinct; a string whose
    fields are distinct is returned as it is. *)
Theorem processExtras_distinct_unchanged {F} (extras : value F) fields :
  fields_of extras = Some fields →
  length (Array_from fields) ≤ length fields
  ∧ (Array_from fields = fields ↔ NoDup fields)
  ∧ (NoDup fields → processExtras extras = Return (VString (join "," fields)))
  ∧ (∀ s, extras = VString s → NoDup fields →
       processExtras extras = Return (VString s)).
Proof.
  intros Hf. split_and!.
  - apply Array_from_length.
  - apply Array_from_fixed.
  - intros Hnd. rewrite (processExtras_accepts _ _ Hf).
    by rewrite Array_from_NoDup_id.
  - intros s -> Hnd. injection Hf as <-. by apply processExtras_distinct.
Qed.

Lemma processExtras_distinct_unchanged_witness :
  processExtras (F:=unit) (VString "url_o,geo,tags") = Return (VString "url_o,geo,tags").
Proof.
  refine (proj2 (proj2 (proj2 (processExtras_distinct_unchanged (F:=unit)
            (VString "url_o,geo,tags") _ eq_refl))) _ eq_refl _).
  apply (bool_decide_unpack _). vm_compute. exact I.
Defined.

(** X7: inputs with the same field names, in whatever order and
    multiplicity, give outputs that list the same names, each once: one
    output is a permutation of the other. *)
Theorem processExtras_same_fields {F} (e1 e2 : value F) f1 f2 :
  fields_of e1 = Some f1 → fields_of e2 = Some f2 →
  (∀ x, x ∈ f1 ↔ x ∈ f2) →
  processExtras e1 = Return (VString (join "," (Array_from f1)))
  ∧ processExtras e2 = Return (VString (join "," (Array_from f2)))
  ∧ Array_from f1 ≡ₚ Array_from f2.
Proof.
  intros H1 H2 Hsame. split_and!; [by apply processExtras_accepts..|].
  apply NoDup_Permutation; [apply Array_from_NoDup..|].
  intros x. rewrite !Array_from_elem. apply Hsame.
Qed.

Lemma processExtras_same_fields_witness :
  Array_from ["tags"; "views"; "tags"] ≡ₚ Array_from ["views"; "views"; "tags"].
Proof.
  refine (proj2 (proj2 (processExtras_same_fields (F:=unit)
            (VArray ["tags"; "views"; "tags"]) (VString "views,views,tags")
            _ _ eq_refl eq_refl _))).
  intros x. split; intros Hx;
    repeat (apply elem_of_cons in Hx as [->|Hx];
            [apply (bool_decide_unpack _); vm_compute; exact I|]);
    by apply elem_of_nil in Hx.
Defined.

(** ** createClient and the builder: failures and what is left untouched *)

(** X8: [createClient] hands out a client exactly when [auth] is a string or
    a function, whatever the options; every string is taken as an API key,
    the empty one too. *)
Theorem createClient_accepts (auth : value Plugin) opts :
  ((typeof auth = "string" ∨ typeof auth = "function")
   ↔ ∃ client, createClient auth opts = Return client)
  ∧ (∀ key, createClient (VString key) opts
            = Return (build (createAPIKeyPlugin key) (client_host opts)))
  ∧ (∀ plugin, createClient (VFunction plugin) opts
               = Return (build plugin (client_host opts))).
Proof.
  split_and!; [|done..]. split.
  - intros [H|H]; destruct auth; try done; eexists; reflexivity.
  - intros [client H]. destruct auth; try done; [by left|by right].
Qed.

Lemma createClient_accepts_witness :
  ∃ client, createClient (VString EmptyString)
              (Some (mkOptions (Some EmptyString) (Some 0%Z))) = Return client.
Proof.
  apply (proj1 (createClient_accepts (VString EmptyString) _)). by left.
Defined.

Lemma build_invalid plugin host verb method args :
  valid_args args = false →
  build plugin host verb method args = Throw (InvalidArgumentType "extras").
Proof.
  intros Hv. rewrite build_assembled.
  by rewrite (normalize_extras_invalid _ Hv).
Qed.

Lemma build_Throw plugin host verb method args e :
  build plugin host verb method args = Throw e →
  e = InvalidArgumentType "extras" ∧ valid_args args = false.
Proof.
  intros He. destruct (valid_args args) eqn:Hv.
  - destruct (build_valid plugin host verb method args Hv)
      as (args' & _ & Hb). congruence.
  - rewrite build_invalid in He by done. by injection He as <-.
Qed.

(** X9: the closure fails in two ways only.  Called with [null] it raises a
    TypeError, for only [undefined] is replaced by an empty object; called
    without [args] or with an object it fails only over [extras]: it returns a
    request whenever [extras] is absent, falsy or of an accepted shape, and
    otherwise throws the invalid-type error for "extras".  Verb, method name,
    host and the other arguments never make it fail. *)
Theorem build_fails_only_on_extras plugin host verb method (args : js_args) :
  (build_any plugin host verb method args = TypeError ↔ args = ArgsNull)
  ∧ (args ≠ ArgsNull →
     build_any plugin host verb method args
     = Built (build plugin host verb method (args_of args))
     ∧ (valid_args (args_of args) = true →
        ∃ r, build plugin host verb method (args_of args) = Return r)
     ∧ (valid_args (args_of args) = false →
        build plugin host verb method (args_of args)
        = Throw (InvalidArgumentType "extras"))
     ∧ (∀ e, build plugin host verb method (args_of args) = Throw e →
        e = InvalidArgumentType "extras" ∧ valid_args (args_of args) = false)).
Proof.
  split.
  - by destruct args.
  - intros Hnull. split_and!.
    + by destruct args.
    + intros Hv. destruct (build_valid plugin host verb method _ Hv)
        as (args' & _ & ->). eauto.
    + apply build_invalid.
    + intros e. apply build_Throw.
Qed.

Lemma build_fails_only_on_extras_witness :
  build_any signing_plugin "api.flickr.com" "GET" "flickr.test.echo" ArgsNull
  = TypeError
  ∧ (∃ r, build signing_plugin "api.flickr.com" "DELETE" EmptyString
            (Some {[ "extras" := VBoolean false ]}) = Return r)
  ∧ build signing_plugin "api.flickr.com" "GET" "flickr.photos.search"
      (Some {[ "extras" := VBoolean true ]})
    = Throw (InvalidArgumentType "extras").
Proof.
  assert (valid_args (Some {[ "extras" := VBoolean false ]}) = true) as H1
    by reflexivity.
  assert (valid_args (Some {[ "extras" := VBoolean true ]}) = false) as H2
    by reflexivity.
  split_and!.
  - exact (proj2 (proj1 (build_fails_only_on_extras signing_plugin
             "api.flickr.com" "GET" "flickr.test.echo" ArgsNull)) eq_refl).
  - exact (proj1 (proj2 (proj2 (build_fails_only_on_extras signing_plugin
             "api.flickr.com" "DELETE" EmptyString
             (ArgsObject {[ "extras" := VBoolean false ]}))
             ltac:(discriminate))) H1).
  - exact (proj1 (proj2 (proj2 (proj2 (build_fails_only_on_extras signing_plugin
             "api.flickr.com" "GET" "flickr.photos.search"
             (ArgsObject {[ "extras" := VBoolean true ]}))
             ltac:(discriminate)))) H2).
Defined.

(** X10: of the arguments, only [extras] is ever rewritten.  The request is
    assembled from a mapping with the same keys as [args] and the same value
    under every key but "extras", so every other argument is attached as the
    caller gave it. *)
Theorem build_keeps_other_args plugin host verb method
    (args : gmap string (value unit)) r :
  build plugin host verb method (Some args) = Return r →
  ∃ args',
    r = plugin (assembled host verb method args')
    ∧ dom args' = dom args
    ∧ (∀ k, k ≠ "extras" → args' !! k = args !! k)
    ∧ (∀ k v, k ≠ "extras" → args !! k = Some v →
         (k, v) ∈ req_query (assembled host verb method args')).
Proof.
  intros (args' & Hn & ->)%build_Return. simpl in Hn.
  destruct (normalize_extras_other_keys _ _ Hn) as [Hdom Hother].
  exists args'. split_and!; [done..|].
  intros k v Hk Hv. apply assembled_args. by rewrite Hother.
Qed.

Lemma build_keeps_other_args_witness :
  ∃ args',
    args' !! "text" = Some (VString "a,a")
    ∧ ("text", VString "a,a")
      ∈ req_query (assembled "api.flickr.com" "GET" "flickr.photos.search" args').
Proof.
  assert (∃ r, build (createAPIKeyPlugin "KEY123")
              "api.flickr.com" "GET" "flickr.photos.search"
              (Some (<[ "text" := VString "a,a" ]> {[ "extras" := VString "a,a" ]}))
              = Return r) as [r Hr] by (eexists; vm_compute; reflexivity).
  destruct (build_keeps_other_args _ _ _ _ _ r Hr)
    as (args' & _ & _ & Hother & Hin).
  exists args'. split.
  - rewrite Hother by discriminate. reflexivity.
  - apply Hin; [discriminate|reflexivity].
Defined.

(** X11: building from arguments that went through the builder once gives
    the same request again: for comma-free field names the normalized
    arguments are left as they are by a second normalization. *)
Theorem build_normalized_again plugin host verb method
    (args args' : gmap string (value unit)) :
  (∀ extras fields x, args !! "extras" = Some extras →
     fields_of extras = Some fields → x ∈ fields → contains comma x = false) →
  normalize_extras args = Return args' →
  normalize_extras args' = Return args'
  ∧ build plugin host verb method (Some args')
    = build plugin host verb method (Some args).
Proof.
  intros Hfree Hn.
  assert (normalize_extras args' = Return args') as Hn'.
  { destruct (normalize_extras_cases args)
      as [[Hsame Hfalsy]|[(extras & fields & He & Ht & Hf & Hacc)
                         |(? & _ & _ & _ & Hrej)]].
    - congruence.
    - rewrite Hacc in Hn. injection Hn as <-.
      unfold normalize_extras. rewrite lookup_insert_eq. simpl default.
      destruct (truthy (VString _)) eqn:Ht'; [|done].
      rewrite processExtras_again by (intros x Hx; exact (Hfree _ _ x He Hf Hx)).
      simpl. unfold mret, outcome_ret. by rewrite insert_insert_eq.
    - congruence. }
  split; [done|]. rewrite !build_assembled. simpl default.
  by rewrite Hn, Hn'.
Qed.

Lemma build_normalized_again_witness :
  build signing_plugin "api.flickr.com" "GET" "flickr.photos.search"
    (Some (<[ "extras" := VString "geo,tags" ]> {[ "extras" := VArray ["geo"; "tags"; "geo"] ]}))
  = build signing_plugin "api.flickr.com" "GET" "flickr.photos.search"
      (Some {[ "extras" := VArray ["geo"; "tags"; "geo"] ]}).
Proof.
  refine (proj2 (build_normalized_again signing_plugin "api.flickr.com"
            "GET" "flickr.photos.search"
            {[ "extras" := VArray ["geo"; "tags"; "geo"] ]} _ _ eq_refl)).
  intros extras fields x [= <-] [= <-] Hx.
  repeat (apply elem_of_cons in Hx as [->|Hx]; [reflexivity|]).
  by apply elem_of_nil in Hx.
Defined.

(** X12: who wins when a name is written twice.  The closure attaches
    [method], then [args], and the API key last, and the query string is keyed
    by name: so an argument named method replaces the operation's method name,
    and the client's API key replaces an argument named api_key. *)
Theorem query_precedence (key : string) opts verb method args args' :
  normalize_extras (default ∅ args) = Return args' →
  ∃ r,
    build (createAPIKeyPlugin key) (client_host opts) verb method args = Return r
    ∧ req_qs r !! "api_key" = Some (VString key)
    ∧ req_qs r !! "method" = Some (default (VString method) (args' !! "method"))
    ∧ args' !! "method" = default ∅ args !! "method"
    ∧ args' !! "api_key" = default ∅ args !! "api_key".
Proof.
  intros Hn.
  destruct (normalize_extras_other_keys _ _ Hn) as [_ Hother].
  eexists. split_and!.
  - rewrite build_assembled. by rewrite Hn.
  - rewrite req_qs_createAPIKeyPlugin. apply lookup_insert_eq.
  - rewrite req_qs_createAPIKeyPlugin, lookup_insert_ne by done.
    apply req_qs_assembled_method.
  - by apply Hother.
  - by apply Hother.
Qed.

Lemma query_precedence_witness :
  ∃ r,
    build (createAPIKeyPlugin "KEY123") "api.flickr.com" "GET" "flickr.test.echo"
      (Some (<[ "api_key" := VString "mine" ]> {[ "method" := VString "evil" ]}))
    = Return r
    ∧ req_qs r !! "api_key" = Some (VString "KEY123")
    ∧ req_qs r !! "method" = Some (VString "evil").
Proof.
  assert (normalize_extras
            (default ∅ (Some (<[ "api_key" := VString "mine" ]>
                                {[ "method" := VString "evil" ]})))
          = Return (<[ "api_key" := VString "mine" ]>
                      {[ "method" := VString "evil" ]})) as Hn
    by (apply normalize_extras_absent; reflexivity).
  destruct (query_precedence "KEY123" None "GET" "flickr.test.echo"
              (Some (<[ "api_key" := VString "mine" ]>
                       {[ "method" := VString "evil" ]}))
              (<[ "api_key" := VString "mine" ]> {[ "method" := VString "evil" ]})
              Hn) as (r & Hr & Hkey & Hmethod & _).
  exists r. split_and!; [exact Hr|exact Hkey|exact Hmethod].
Defined.

(** ** The domain operations *)

Lemma validate_all_present args required :
  (∀ q, q ∈ required → is_Some (default ∅ args !! q)) →
  validate_all args required = Return tt.
Proof.
  induction required as [|p rest IH]; intros Hall; simpl; [done|].
  destruct (Hall p) as [v Hv]; [by left|].
  unfold validate. rewrite Hv. simpl. apply IH.
  intros q Hq. apply Hall. by right.
Qed.

Lemma validate_all_first_missing args before p after :
  (∀ q, q ∈ before → is_Some (default ∅ args !! q)) →
  default ∅ args !! p = None →
  validate_all args (before ++ p :: after) = Throw (MissingRequiredArgument p).
Proof.
  induction before as [|b before IH]; intros Hall Hp; simpl.
  - unfold validate. by rewrite Hp.
  - destruct (Hall b) as [v Hv]; [by left|].
    unfold validate at 1. rewrite Hv. simpl. apply IH; [|done].
    intros q Hq. apply Hall. by right.
Qed.

Lemma validate_all_Throw args required e :
  validate_all args required = Throw e →
  ∃ p, p ∈ required ∧ default ∅ args !! p = None
    ∧ e = MissingRequiredArgument p.
Proof.
  induction required as [|p rest IH]; simpl; [done|].
  unfold validate at 1. destruct (default ∅ args !! p) as [v|] eqn:Hp; simpl.
  - intros (q & Hq & Hnone & ->)%IH. exists q. split_and!; [by right|done..].
  - intros [= <-]. exists p. split_and!; [by left|done..].
Qed.

Lemma validate_all_Return args required :
  validate_all args required = Return tt →
  ∀ q, q ∈ required → is_Some (default ∅ args !! q).
Proof.
  induction required as [|p rest IH]; simpl.
  - intros _ q Hq. by apply elem_of_nil in Hq.
  - unfold validate at 1. destruct (default ∅ args !! p) as [v|] eqn:Hp; [|done].
    simpl. intros Hrest q [->|Hq]%elem_of_cons; [by rewrite Hp|by apply IH].
Qed.

Lemma run_present op this args :
  (∀ q, q ∈ op_required op → is_Some (default ∅ args !! q)) →
  run op this args = underscore this (op_verb op) (op_name op) args.
Proof. intros Hall. unfold run. by rewrite validate_all_present. Qed.

Lemma invoke_client proto op args client :
  proto !! op_namespace op = Some client →
  invoke proto op args = Completed (run op {| underscore := client |} args).
Proof.
  intros Hns. unfold invoke, run.
  destruct (validate_all args (op_required op)) as [[]|e]; [|done].
  simpl. unfold Client in *. by rewrite Hns.
Qed.

(** The checks below run over the tables. *)
Lemma method_table_names :
  forallb (λ op, String.eqb (op_name op)
             ("flickr." +:+ op_namespace op +:+ "." +:+ op_function op))
    method_table = true.
Proof. vm_compute. reflexivity. Qed.

Lemma method_table_namespaces :
  forallb (λ op, bool_decide (op_namespace op ∈ namespaces)) method_table = true.
Proof. vm_compute. reflexivity. Qed.

Lemma method_table_name op :
  op ∈ method_table →
  op_name op = "flickr." +:+ op_namespace op +:+ "." +:+ op_function op.
Proof.
  intros Hop%list_elem_of_In.
  pose proof (proj1 (forallb_forall _ _) method_table_names op Hop) as H.
  by apply String.eqb_eq in H.
Qed.

Lemma method_table_namespace op :
  op ∈ method_table → op_namespace op ∈ namespaces.
Proof.
  intros Hop%list_elem_of_In.
  pose proof (proj1 (forallb_forall _ _) method_table_namespaces op Hop) as H.
  by apply bool_decide_eq_true in H.
Qed.

Lemma first_absent (args : option (gmap string (value unit)))
    (required : list string) p :
  p ∈ required → default ∅ args !! p = None →
  ∃ before q after,
    required = before ++ q :: after
    ∧ (∀ x, x ∈ before → is_Some (default ∅ args !! x))
    ∧ default ∅ args !! q = None.
Proof.
  induction required as [|x required IH]; intros Hp Hnone.
  - by apply elem_of_nil in Hp.
  - destruct (default ∅ args !! x) as [v|] eqn:Hx.
    + apply elem_of_cons in Hp as [->|Hp]; [congruence|].
      destruct (IH Hp Hnone) as (before & q & after & -> & Hbefore & Hq).
      exists (x :: before), q, after. split_and!; [done| |done].
      intros y [->|Hy]%elem_of_cons; [by rewrite Hx|by apply Hbefore].
    + exists [], x, required. split_and!; [done| |done].
      intros y Hy. by apply elem_of_nil in Hy.
Qed.

Lemma run_missing op this (args : option (gmap string (value unit)))
    before q after :
  op_required op = before ++ q :: after →
  (∀ x, x ∈ before → is_Some (default ∅ args !! x)) →
  default ∅ args !! q = None →
  run op this args = Throw (MissingRequiredArgument q).
Proof.
  intros Hreq Hbefore Hq. unfold run. rewrite Hreq.
  by rewrite (validate_all_first_missing _ _ _ _ Hbefore Hq).
Qed.

(** The operation of the claims, photos.getInfo, is the table's entry for
    it. *)
Lemma photos_getInfo_entry this args :
  method_table !! 81
  = Some (mkOp "photos" "getInfo" "GET" "flickr.photos.getInfo" ["photo_id"])
  ∧ photos_getInfo this args
    = run (mkOp "photos" "getInfo" "GET" "flickr.photos.getInfo" ["photo_id"])
        this args.
Proof.
  split; [reflexivity|]. unfold photos_getInfo, run. simpl.
  by destruct (validate args "photo_id") as [[]|e].
Qed.

(** C8, as the code has it: every domain operation of the file, called with
    one of its required parameters absent from [args], fails with the
    missing-argument error naming the first of its required parameters, in
    the order of its [validate] calls, that is absent; that is the absent
    parameter itself where the operation requires just one, as photos.getInfo
    requires [photo_id].  The failure is decided by the checks alone:
    whatever request builder the namespace holds, the outcome is this error,
    so the builder has no part in it and no request is constructed. *)
Theorem missing_required_parameter :
  Forall (λ op, ∀ (this : Namespace) args p,
      p ∈ op_required op → default ∅ args !! p = None →
      ∃ before q after,
        op_required op = before ++ q :: after
        ∧ (∀ x, x ∈ before → is_Some (default ∅ args !! x))
        ∧ default ∅ args !! q = None
        ∧ run op this args = Throw (MissingRequiredArgument q)
        ∧ returns (run op this args) = false
        ∧ (∀ other : Namespace, run op other args = run op this args)
        ∧ (op_required op = [p] → q = p))
    method_table
  ∧ (∀ (this : Namespace) args,
       default ∅ args !! "photo_id" = None →
       photos_getInfo this args = Throw (MissingRequiredArgument "photo_id")
       ∧ (∀ other : Namespace,
            photos_getInfo other args = photos_getInfo this args))
  ∧ MissingRequiredArgument "photo_id"
    = Error ("Missing required argument " +:+ dquote +:+ "photo_id" +:+ dquote).
Proof.
  assert (∀ op (this : Namespace) args p,
      p ∈ op_required op → default ∅ args !! p = None →
      ∃ before q after,
        op_required op = before ++ q :: after
        ∧ (∀ x, x ∈ before → is_Some (default ∅ args !! x))
        ∧ default ∅ args !! q = None
        ∧ run op this args = Throw (MissingRequiredArgument q)
        ∧ returns (run op this args) = false
        ∧ (∀ other : Namespace, run op other args = run op this args)
        ∧ (op_required op = [p] → q = p)) as Hgeneral.
  { intros op this args p Hp Hnone.
    destruct (first_absent args (op_required op) p Hp Hnone)
      as (before & q & after & Hreq & Hbefore & Hq).
    exists before, q, after.
    assert (∀ ns, run op ns args = Throw (MissingRequiredArgument q)) as Hrun.
    { intros ns. by eapply run_missing. }
    split_and!; [done|done|done|apply Hrun|by rewrite Hrun| |].
    - intros other. by rewrite !Hrun.
    - intros Hone. rewrite Hone in Hreq.
      destruct before as [|b before]; [by injection Hreq|].
      injection Hreq as _ Hrest. by destruct before. }
  split_and!; [|  |done].
  - apply Forall_forall. intros op _. apply Hgeneral.
  - intros this args Hnone.
    destruct (Hgeneral
      (mkOp "photos" "getInfo" "GET" "flickr.photos.getInfo" ["photo_id"])
      this args "photo_id") as (before & q & after & _ & _ & _ & Hrun & _ & Hind & Hq);
      [by left|done|].
    rewrite (Hq eq_refl) in Hrun. split.
    + by rewrite (proj2 (photos_getInfo_entry this args)).
    + intros other. rewrite !(proj2 (photos_getInfo_entry _ args)). apply Hind.
Qed.

Lemma missing_required_parameter_witness :
  (∃ q, default ∅ (Some ({[ "photo_id" := VString "1" ]}
                           : gmap string (value unit))) !! q = None
     ∧ run (mkOp "favorites" "getContext" "GET" "flickr.favorites.getContext"
              ["photo_id"; "user_id"])
         {| underscore := build (createAPIKeyPlugin "KEY123") "api.flickr.com" |}
         (Some {[ "photo_id" := VString "1" ]})
       = Throw (MissingRequiredArgument q))
  ∧ photos_getInfo
      {| underscore := build (createAPIKeyPlugin "KEY123") "api.flickr.com" |}
      None
    = Throw (MissingRequiredArgument "photo_id").
Proof.
  split.
  - pose proof (Forall_lookup_1 _ _ 21 _ (proj1 missing_required_parameter)
                  eq_refl
                  {| underscore := build (createAPIKeyPlugin "KEY123") "api.flickr.com" |}
                  (Some {[ "photo_id" := VString "1" ]}) "user_id") as H.
    destruct H as (before & q & after & _ & _ & Hq & Hrun & _);
      [right; by left|reflexivity|].
    exists q. split; [exact Hq|exact Hrun].
  - exact (proj1 (proj1 (proj2 missing_required_parameter) _ None eq_refl)).
Defined.

(** C8 fails as stated where an operation requires several parameters: the
    error names the first absent one, which need not be the absent one asked
    about.  photos.notes.add called with an empty [args] has [note_x] absent,
    and fails naming [photo_id]. *)
Lemma first_absent_parameter_is_named :
  method_table !! 115
  = Some (mkOp "photos.notes" "add" "POST" "flickr.photos.notes.add"
            ["photo_id"; "note_x"; "note_y"; "note_w"; "note_h"; "note_text"])
  ∧ (∅ : gmap string (value unit)) !! "note_x" = None
  ∧ run (mkOp "photos.notes" "add" "POST" "flickr.photos.notes.add"
           ["photo_id"; "note_x"; "note_y"; "note_w"; "note_h"; "note_text"])
      {| underscore := build (createAPIKeyPlugin "KEY123") "api.flickr.com" |}
      (Some ∅)
    = Throw (MissingRequiredArgument "photo_id")
  ∧ MissingRequiredArgument "photo_id" ≠ MissingRequiredArgument "note_x".
Proof. split_and!; [reflexivity|reflexivity|reflexivity|discriminate]. Qed.

(** X13: an operation reports the first of its required parameters, in the
    order of its [validate] calls, that is absent from [args]; whatever
    client the namespace holds, the outcome is this error. *)
Theorem run_first_missing op this args before p after :
  op_required op = before ++ p :: after →
  (∀ q, q ∈ before → is_Some (default ∅ args !! q)) →
  default ∅ args !! p = None →
  run op this args = Throw (MissingRequiredArgument p)
  ∧ (∀ other : Namespace, run op other args = run op this args).
Proof.
  intros Hreq Hbefore Hp.
  assert (∀ ns, run op ns args = Throw (MissingRequiredArgument p)) as H.
  { intros ns. unfold run. rewrite Hreq.
    by rewrite (validate_all_first_missing _ _ _ _ Hbefore Hp). }
  split; [apply H|]. intros other. by rewrite !H.
Qed.

Lemma run_first_missing_witness :
  run (mkOp "photos.notes" "add" "POST" "flickr.photos.notes.add"
         ["photo_id"; "note_x"; "note_y"; "note_w"; "note_h"; "note_text"])
    {| underscore := build (createAPIKeyPlugin "KEY123") "api.flickr.com" |}
    (Some (<[ "note_x" := VNumber 10%float ]> {[ "photo_id" := VString "1" ]}))
  = Throw (MissingRequiredArgument "note_y").
Proof.
  refine (proj1 (run_first_missing
                   (mkOp "photos.notes" "add" "POST" "flickr.photos.notes.add"
                      ["photo_id"; "note_x"; "note_y"; "note_w"; "note_h"; "note_text"])
                   _ _ ["photo_id"; "note_x"] "note_y"
                   ["note_w"; "note_h"; "note_text"] eq_refl _ _));
    [|reflexivity].
  intros q Hq.
  repeat (apply elem_of_cons in Hq as [->|Hq]; [eexists; reflexivity|]).
  by apply elem_of_nil in Hq.
Defined.

Lemma run_any_run op plugin host (args : js_args) :
  args ≠ ArgsNull →
  run_any op plugin host args
  = Built (run op {| underscore := build plugin host |} (args_of args)).
Proof.
  intros Hnull. unfold run_any, run.
  destruct (validate_all (args_of args) (op_required op)) as [[]|e]; [|done].
  by destruct args.
Qed.

(** X15: an operation called on a client of [createClient], without [args]
    or with an object, can fail in two ways only: with the missing-argument
    error of one of its own required parameters or, these all present, with
    the invalid-type error for "extras"; the parameter check comes first, so
    with a required parameter absent the error is a missing-argument error
    even if [extras] is invalid.  An operation without required parameters
    makes no check: called with [null] it reaches the closure and ends in
    its TypeError. *)
Theorem run_errors op plugin host (args : js_args) :
  (args ≠ ArgsNull →
     run_any op plugin host args
     = Built (run op {| underscore := build plugin host |} (args_of args))
     ∧ (∀ e, run_any op plugin host args = Built (Throw e) →
          (∃ p, p ∈ op_required op ∧ default ∅ (args_of args) !! p = None
             ∧ e = MissingRequiredArgument p)
          ∨ (e = InvalidArgumentType "extras"
             ∧ valid_args (args_of args) = false
             ∧ ∀ q, q ∈ op_required op →
                 is_Some (default ∅ (args_of args) !! q)))
     ∧ (∀ p, p ∈ op_required op → default ∅ (args_of args) !! p = None →
          ∃ q, q ∈ op_required op
            ∧ run_any op plugin host args
              = Built (Throw (MissingRequiredArgument q))))
  ∧ (args = ArgsNull → op_required op = [] →
     run_any op plugin host args = TypeError).
Proof.
  split.
  - intros Hnull. split_and!.
    + by apply run_any_run.
    + intros e. unfold run_any.
      destruct (validate_all (args_of args) (op_required op)) as [[]|e'] eqn:Hv.
      * pose proof (validate_all_Return _ _ Hv) as Hall.
        destruct args; [|done|]; intros [= [-> Hinv]%build_Throw]; by right.
      * intros [= <-]. left. by apply validate_all_Throw.
    + intros p Hp Hnone. unfold run_any.
      destruct (validate_all (args_of args) (op_required op)) as [[]|e'] eqn:Hv.
      * destruct (validate_all_Return _ _ Hv p Hp) as [v Hv']. congruence.
      * destruct (validate_all_Throw _ _ _ Hv) as (q & Hq & _ & ->). eauto.
  - intros -> Hnone. unfold run_any. by rewrite Hnone.
Qed.

Lemma run_errors_witness :
  (∃ q, run_any (mkOp "photos" "getInfo" "GET" "flickr.photos.getInfo" ["photo_id"])
          signing_plugin "api.flickr.com"
          (ArgsObject {[ "extras" := VNumber 1%float ]})
        = Built (Throw (MissingRequiredArgument q)))
  ∧ run_any (mkOp "activity" "userComments" "GET" "flickr.activity.userComments" [])
      signing_plugin "api.flickr.com" ArgsNull
    = TypeError.
Proof.
  split.
  - destruct (proj2 (proj2 (proj1 (run_errors
                (mkOp "photos" "getInfo" "GET" "flickr.photos.getInfo" ["photo_id"])
                signing_plugin "api.flickr.com"
                (ArgsObject {[ "extras" := VNumber 1%float ]}))
                ltac:(discriminate)))
                "photo_id" ltac:(by left) eq_refl) as (q & _ & Hq).
    by exists q.
  - exact (proj2 (run_errors
             (mkOp "activity" "userComments" "GET" "flickr.activity.userComments" [])
             signing_plugin "api.flickr.com" ArgsNull) eq_refl eq_refl).
Defined.

(** ** The method table and its documentation *)

(** X16: every operation sends, as remote method name, "flickr." followed by
    its own path on the prototype (namespace, dot, function name); no two
    operations share a path or a remote method name. *)
Theorem method_names_match_paths :
  Forall (λ op, op_name op
                = "flickr." +:+ op_namespace op +:+ "." +:+ op_function op)
    method_table
  ∧ NoDup (op_name <$> method_table)
  ∧ NoDup ((λ op, (op_namespace op, op_function op)) <$> method_table)
  ∧ length method_table = 221.
Proof.
  split_and!.
  - apply Forall_forall. intros op Hop. by apply method_table_name.
  - apply (bool_decide_unpack _). vm_compute. exact I.
  - apply (bool_decide_unpack _). vm_compute. exact I.
  - reflexivity.
Qed.

(** X17: the code agrees with its documentation: the table in the comment of
    [Flickr] lists the same remote methods in the same order, and for each of
    them the required arguments are the parameters the operation validates,
    in the order it validates them. *)
Theorem required_arguments_as_documented :
  (λ op, (op_name op, op_required op)) <$> method_table
  = (λ row, (doc_method row, doc_required row)) <$> documentation.
Proof. vm_compute. reflexivity. Qed.

(** X18: the verb follows the documented permission: an operation is sent
    with POST exactly when its method is documented with permission write or
    delete, and with GET exactly when that is none or read; no other verb
    occurs. *)
Theorem verb_follows_permission :
  Forall2 (λ op row,
      (op_verb op = "POST"
       ↔ doc_permission row = "write" ∨ doc_permission row = "delete")
      ∧ (op_verb op = "GET"
         ↔ doc_permission row = "none" ∨ doc_permission row = "read"))
    method_table documentation
  ∧ Forall (λ op, op_verb op = "GET" ∨ op_verb op = "POST") method_table.
Proof.
  split; apply (bool_decide_unpack _); vm_compute; exact I.
Qed.

(** ** The constructor and the shared namespaces *)

Lemma foldr_insert_lookup (client : Client) (l : list string)
    (proto : gmap string Client) ns :
  (ns ∈ l → foldr (λ k store, <[ k := client ]> store) proto l !! ns = Some client)
  ∧ (ns ∉ l → foldr (λ k store, <[ k := client ]> store) proto l !! ns = proto !! ns).
Proof.
  unfold Client in *. induction l as [|k l [IHin IHout]]; simpl.
  - split; [by intros ?%elem_of_nil|done].
  - destruct (decide (k = ns)) as [->|Hne].
    + rewrite lookup_insert_eq. split; [done|].
      intros Hout. destruct Hout. by left.
    + rewrite lookup_insert_ne by done. split.
      * intros [->|Hin]%elem_of_cons; [done|by apply IHin].
      * intros Hout. apply IHout. intros Hin. apply Hout. by right.
Qed.

Lemma assign_namespaces_lookup client proto ns :
  ns ∈ namespaces → assign_namespaces client proto !! ns = Some client.
Proof.
  intros Hns. unfold assign_namespaces.
  by apply foldr_insert_lookup.
Qed.

Lemma assign_namespaces_other client proto ns :
  ns ∉ namespaces → assign_namespaces client proto !! ns = proto !! ns.
Proof.
  intros Hns. unfold assign_namespaces.
  by apply foldr_insert_lookup.
Qed.

Lemma Flickr_shared_Return how auth opts proto client proto' :
  Flickr_shared how auth opts proto = (Return client, proto') →
  proto' = assign_namespaces client proto
  ∧ createClient auth (match how with WithoutNew => None | WithNew => opts end)
    = Return client.
Proof.
  unfold Flickr_shared.
  destruct (createClient auth _) as [c|e]; intros [= <- <-]; done.
Qed.

(** X14: with all its required parameters present an operation is the call
    of its namespace's client with its verb, its remote method name and the
    caller's [args], unchanged.  The constructor stores one client under the
    object's own [_] and under every namespace, so on an object just
    constructed the pass-through [_] builds the same request as the named
    operation.  An operation without required parameters can be called
    without [args]. *)
Theorem run_passes_through op this args :
  (∀ q, q ∈ op_required op → is_Some (default ∅ args !! q)) →
  run op this args = underscore this (op_verb op) (op_name op) args
  ∧ (∀ how auth opts fl,
       Flickr how auth opts = Return fl →
       run op (photos fl) args = passthrough fl (op_verb op) (op_name op) args)
  ∧ (∀ how auth opts proto client proto',
       Flickr_shared how auth opts proto = (Return client, proto') →
       op ∈ method_table →
       invoke proto' op args
       = Completed (client (op_verb op) (op_name op) args))
  ∧ (op_required op = [] →
       run op this None = underscore this (op_verb op) (op_name op) None).
Proof.
  intros Hall. split_and!.
  - by apply run_present.
  - intros how auth opts fl Hfl. rewrite run_present by done.
    unfold Flickr, Flickr_init in Hfl.
    destruct how; destruct (createClient auth _) as [c|e];
      simpl in Hfl; try done; by injection Hfl as <-.
  - intros how auth opts proto client proto' [-> _]%Flickr_shared_Return Hop.
    rewrite (invoke_client _ _ _ client)
      by (by apply assign_namespaces_lookup, method_table_namespace).
    by rewrite run_present.
  - intros Hnone. apply run_present. rewrite Hnone.
    intros q Hq. by apply elem_of_nil in Hq.
Qed.

Lemma run_passes_through_witness :
  run (mkOp "photos" "getInfo" "GET" "flickr.photos.getInfo" ["photo_id"])
    {| underscore := build (createAPIKeyPlugin "KEY123") "api.flickr.com" |}
    (Some {[ "photo_id" := VString "25825763" ]})
  = build (createAPIKeyPlugin "KEY123") "api.flickr.com"
      "GET" "flickr.photos.getInfo" (Some {[ "photo_id" := VString "25825763" ]}).
Proof.
  refine (proj1 (run_passes_through
                   (mkOp "photos" "getInfo" "GET" "flickr.photos.getInfo" ["photo_id"])
                   _ _ _)).
  intros q Hq.
  repeat (apply elem_of_cons in Hq as [->|Hq]; [eexists; reflexivity|]).
  by apply elem_of_nil in Hq.
Defined.

(** X19: the constructor stores the client in exactly the namespace objects
    the prototype declares, each once and in declaration order, and every
    operation of the table lives in one of them: after a successful
    construction each operation finds the new client under [this._], so none
    runs into a missing one. *)
Theorem constructor_covers_namespaces how auth opts proto client proto' :
  Flickr_shared how auth opts proto = (Return client, proto') →
  namespaces = declared_namespaces
  ∧ NoDup namespaces
  ∧ Forall (λ op, proto' !! op_namespace op = Some client) method_table
  ∧ Forall (λ op, ∀ args,
              invoke proto' op args
              = Completed (run op {| underscore := client |} args))
      method_table.
Proof.
  intros [-> _]%Flickr_shared_Return.
  assert (∀ op, op ∈ method_table →
            assign_namespaces client proto !! op_namespace op = Some client)
    as Hfound.
  { intros op Hop. by apply assign_namespaces_lookup, method_table_namespace. }
  split_and!.
  - reflexivity.
  - apply (bool_decide_unpack _). vm_compute. exact I.
  - apply Forall_forall. exact Hfound.
  - apply Forall_forall. intros op Hop args.
    by apply invoke_client, Hfound.
Qed.

Lemma constructor_covers_namespaces_witness :
  invoke (assign_namespaces (build (createAPIKeyPlugin "KEY123") "api.flickr.com") ∅)
    (mkOp "test" "echo" "GET" "flickr.test.echo" []) None
  = Completed (run (mkOp "test" "echo" "GET" "flickr.test.echo" [])
      {| underscore := build (createAPIKeyPlugin "KEY123") "api.flickr.com" |} None).
Proof.
  pose proof (proj2 (proj2 (proj2 (constructor_covers_namespaces WithNew
    (VString "KEY123") None ∅ _ _ eq_refl)))) as Hall.
  exact (Forall_lookup_1 _ _ 199 _ Hall eq_refl None).
Defined.

(** X20: the namespace objects belong to the prototype, not to the Flickr
    object.  Once a second Flickr object is constructed, every operation,
    also when called through the first object, goes to the second object's
    client; so with two API keys the requests carry the second key.  Only the
    objects' own [_] differ. *)
Theorem namespaces_shared_between_objects
    how1 auth1 opts1 how2 auth2 opts2 proto client1 proto1 client2 proto2 :
  Flickr_shared how1 auth1 opts1 proto = (Return client1, proto1) →
  Flickr_shared how2 auth2 opts2 proto1 = (Return client2, proto2) →
  Forall (λ op, proto1 !! op_namespace op = Some client1
                ∧ proto2 !! op_namespace op = Some client2) method_table
  ∧ Forall (λ op, ∀ args,
              invoke proto2 op args
              = Completed (run op {| underscore := client2 |} args))
      method_table
  ∧ (∀ key1 key2 op args r,
       auth1 = VString key1 → auth2 = VString key2 →
       op ∈ method_table →
       invoke proto2 op args = Completed (Return r) →
       ∃ args', normalize_extras (default ∅ args) = Return args'
         ∧ req_query r = ("method", VString (op_name op)) :: map_to_list args'
                         ++ [("api_key", VString key2)]).
Proof.
  intros [-> _]%Flickr_shared_Return [-> H2]%Flickr_shared_Return.
  assert (∀ c p op, op ∈ method_table →
            assign_namespaces c p !! op_namespace op = Some c) as Hfound.
  { intros c p op Hop.
    by apply assign_namespaces_lookup, method_table_namespace. }
  split_and!.
  - apply Forall_forall. intros op Hop. split; by apply Hfound.
  - apply Forall_forall. intros op Hop args. by apply invoke_client, Hfound.
  - intros key1 key2 op args r -> -> Hop.
    rewrite (invoke_client _ _ _ client2) by (by apply Hfound).
    rewrite createClient_decorator in H2. injection H2 as <-.
    intros [= Hrun]. unfold run in Hrun.
    destruct (validate_all args (op_required op)) as [[]|e]; [|done].
    simpl in Hrun.
    apply build_Return in Hrun as (args' & Hn & ->).
    exists args'. split; [done|].
    by rewrite createAPIKeyPlugin_query, assembled_query.
Qed.

Lemma namespaces_shared_between_objects_witness :
  let first := build (createAPIKeyPlugin "KEY-A") "api.flickr.com" in
  let second := build (createAPIKeyPlugin "KEY-B") "api.flickr.com" in
  invoke (assign_namespaces second (assign_namespaces first ∅))
    (mkOp "test" "echo" "GET" "flickr.test.echo" []) None
  = Completed (Return
      {| req_verb := "GET";
         req_url := "https://api.flickr.com/services/rest";
         req_query := [("method", VString "flickr.test.echo");
                       ("api_key", VString "KEY-B")];
         req_headers := [];
         req_parse := Some FlickrJson |}).
Proof.
  intros first second.
  pose proof (proj1 (proj2 (namespaces_shared_between_objects
    WithNew (VString "KEY-A") None WithoutNew (VString "KEY-B") None
    ∅ _ _ _ _ eq_refl eq_refl))) as Hall.
  exact (Forall_lookup_1 _ _ 199 _ Hall eq_refl None).
Defined.

(** X21: a construction that fails, [auth] being neither a string nor a
    function, assigns nothing: the namespaces keep the client they had, and
    the operations go on working with it. *)
Theorem failed_construction_keeps_namespaces how (auth : value Plugin) opts proto :
  typeof auth ≠ "string" →
  typeof auth ≠ "function" →
  Flickr_shared how auth opts proto
  = (Throw (MissingRequiredArgument "auth"), proto)
  ∧ (∀ op args, invoke (snd (Flickr_shared how auth opts proto)) op args
                = invoke proto op args).
Proof.
  intros Hs Hf.
  assert (Flickr_shared how auth opts proto
          = (Throw (MissingRequiredArgument "auth"), proto)) as ->.
  { unfold Flickr_shared. rewrite createClient_decorator.
    by destruct auth. }
  done.
Qed.

Lemma failed_construction_keeps_namespaces_witness :
  Flickr_shared WithNew VNull None
    (assign_namespaces (build (createAPIKeyPlugin "KEY123") "api.flickr.com") ∅)
  = (Throw (MissingRequiredArgument "auth"),
     assign_namespaces (build (createAPIKeyPlugin "KEY123") "api.flickr.com") ∅).
Proof.
  exact (proj1 (failed_construction_keeps_namespaces WithNew VNull None _
                  ltac:(discriminate) ltac:(discriminate))).
Defined.

(** X22: before any Flickr object is constructed the namespaces hold no
    client.  An operation still checks its parameters first and reports a
    missing one; with all of them present it gets to [this._(...)] and stops
    there, [_] being undefined. *)
Theorem invoke_before_construction op args :
  ((∀ q, q ∈ op_required op → is_Some (default ∅ args !! q)) →
     invoke ∅ op args = NotAFunction)
  ∧ (∀ before p after,
       op_required op = before ++ p :: after →
       (∀ q, q ∈ before → is_Some (default ∅ args !! q)) →
       default ∅ args !! p = None →
       invoke ∅ op args = Completed (Throw (MissingRequiredArgument p))).
Proof.
  split.
  - intros Hall. unfold invoke. by rewrite validate_all_present.
  - intros before p after Hreq Hbefore Hp. unfold invoke. rewrite Hreq.
    by rewrite (validate_all_first_missing _ _ _ _ Hbefore Hp).
Qed.

Lemma invoke_before_construction_witness :
  invoke ∅ (mkOp "photos" "getInfo" "GET" "flickr.photos.getInfo" ["photo_id"])
    (Some {[ "photo_id" := VString "25825763" ]}) = NotAFunction
  ∧ invoke ∅ (mkOp "photos" "getInfo" "GET" "flickr.photos.getInfo" ["photo_id"])
      None = Completed (Throw (MissingRequiredArgument "photo_id")).
Proof.
  split.
  - refine (proj1 (invoke_before_construction
      (mkOp "photos" "getInfo" "GET" "flickr.photos.getInfo" ["photo_id"])
      (Some {[ "photo_id" := VString "25825763" ]})) _).
    intros q Hq.
    repeat (apply elem_of_cons in Hq as [->|Hq]; [eexists; reflexivity|]).
    by apply elem_of_nil in Hq.
  - refine (proj2 (invoke_before_construction
      (mkOp "photos" "getInfo" "GET" "flickr.photos.getInfo" ["photo_id"])
      None) [] "photo_id" [] eq_refl _ eq_refl).
    intros q Hq. by apply elem_of_nil in Hq.
Defined.

(** The constructor on the store agrees with the constructor of the claims:
    same outcome, and the client it returns is the one that object holds. *)
Lemma Flickr_shared_Flickr how auth opts proto :
  Flickr how auth opts
  = match fst (Flickr_shared how auth opts proto) with
    | Return client =>
        Return {| passthrough := client; photos := {| underscore := client |} |}
    | Throw e => Throw e
    end.
Proof.
  unfold Flickr, Flickr_init, Flickr_shared.
  destruct how; by destruct (createClient auth _).
Qed.

(** X23: from construction to request, for every operation of the table.  On
    a Flickr object made with [new] from an API key, an operation called with
    its required parameters, a valid [extras] and no argument named method
    returns a request with the operation's verb, for the configured host,
    sent with [method] equal to "flickr." and the operation's path, with the
    API key, and with each required parameter as given. *)
Theorem operation_request :
  Forall (λ op,
    ∀ (key : string) opts proto client proto' (args : gmap string (value unit)),
      Flickr_shared WithNew (VString key) opts proto = (Return client, proto') →
      (∀ q, q ∈ op_required op → is_Some (args !! q)) →
      valid_args (Some args) = true →
      args !! "method" = None →
      ∃ r, invoke proto' op (Some args) = Completed (Return r)
        ∧ req_verb r = op_verb op
        ∧ req_url r = "https://" +:+ client_host opts +:+ "/services/rest"
        ∧ req_qs r !! "method"
          = Some (VString ("flickr." +:+ op_namespace op +:+ "."
                           +:+ op_function op))
        ∧ req_qs r !! "api_key" = Some (VString key)
        ∧ (∀ q v, q ∈ op_required op → q ≠ "extras" → q ≠ "api_key" →
             args !! q = Some v → req_qs r !! q = Some v))
    method_table.
Proof.
  apply Forall_forall.
  intros op Hop key opts proto client proto' args Hnew Hreq Hvalid Hmethod.
  apply Flickr_shared_Return in Hnew as [-> Hclient].
  rewrite createClient_decorator in Hclient. injection Hclient as <-.
  rewrite (invoke_client _ _ _ (build (createAPIKeyPlugin key) (client_host opts)))
    by (by apply assign_namespaces_lookup, method_table_namespace).
  rewrite run_present by done. simpl underscore.
  destruct (build_valid (createAPIKeyPlugin key) (client_host opts)
              (op_verb op) (op_name op) (Some args) Hvalid)
    as (args' & Hn & ->).
  destruct (normalize_extras_other_keys _ _ Hn) as [_ Hother].
  eexists. split; [reflexivity|].
  rewrite req_qs_createAPIKeyPlugin.
  split_and!; [done|done| | |].
  - rewrite lookup_insert_ne by done. rewrite req_qs_assembled_method.
    rewrite Hother by done. simpl default. rewrite Hmethod. simpl.
    by rewrite (method_table_name op Hop).
  - apply lookup_insert_eq.
  - intros q v _ Hq Hkey Hv. rewrite lookup_insert_ne by done.
    apply req_qs_assembled_args. by rewrite Hother.
Qed.

Lemma operation_request_witness :
  ∃ r, invoke (assign_namespaces (build (createAPIKeyPlugin "KEY123") "localhost:3000") ∅)
         (mkOp "favorites" "getContext" "GET" "flickr.favorites.getContext"
            ["photo_id"; "user_id"])
         (Some (<[ "user_id" := VString "me" ]> {[ "photo_id" := VString "1" ]}))
       = Completed (Return r)
    ∧ req_qs r !! "method" = Some (VString "flickr.favorites.getContext")
    ∧ req_url r = "https://localhost:3000/services/rest".
Proof.
  assert (valid_args (Some (<[ "user_id" := VString "me" ]>
                              {[ "photo_id" := VString "1" ]})) = true)
    as Hvalid by reflexivity.
  assert ((<[ "user_id" := VString "me" ]> {[ "photo_id" := VString "1" ]}
           : gmap string (value unit)) !! "method" = None)
    as Hmethod by reflexivity.
  destruct (Forall_lookup_1 _ _ 21 _ operation_request eq_refl
              "KEY123" (Some (mkOptions (Some "localhost") (Some 3000%Z)))
              ∅ _ _ (<[ "user_id" := VString "me" ]> {[ "photo_id" := VString "1" ]})
              eq_refl)
    as (r & Hr & _ & Hurl & Hm & _).
  - intros q Hq.
    repeat (apply elem_of_cons in Hq as [->|Hq]; [eexists; reflexivity|]).
    by apply elem_of_nil in Hq.
  - exact Hvalid.
  - exact Hmethod.
  - exists r. split_and!; [exact Hr|exact Hm|exact Hurl].
Defined.
